(** * Bochan audio library: playback queue and encoder framing

    A shallow embedding of [BochanAudioLib/BochanAudioPlayer.h] and
    [BochanAudioLib/BochanEncoder.cpp], with the properties the design
    document states about them.

    - [Module Player]: the playback queue behind [queueData] / [fillData].
    - [Module Encoder]: [BochanEncoder] ([initialize], [deinitialize], the
      getters and [encode]) over an explicit description of the codec
      backend it drives. *)

From Stdlib Require Import ZArith Lia Bool.
From Stdlib Require Import Strings.Byte.
From stdpp Require Import base tactics option list.

Local Open Scope Z_scope.

(** Bytes are [Byte.byte]; silence is the zero byte. *)
Definition zero_byte : byte := x00.

(* ===================================================================== *)
(** * The playback queue                                                   *)
(* ===================================================================== *)

Module Player.

(** The object declared in [BochanAudioPlayer.h]: [initialized], [playing],
    [sampleBuffer] and [sampleBufferPos] are its own members; the size
    range belongs to the [AudioPlayer] base.  [sampleBuffer] is the list of
    stored bytes, [capacity] the size of its current allocation. *)
Record BochanAudioPlayer := mkPlayer {
  initialized : bool;
  playing : bool;
  minBufferSize : nat;
  maxBufferSize : nat;
  sampleBuffer : list byte;
  capacity : nat;
  sampleBufferPos : nat
}.

(** The bytes queued and not yet handed to the output device. *)
Definition unread (p : BochanAudioPlayer) : list byte :=
  drop (sampleBufferPos p) (sampleBuffer p).

(** The state invariant of the data model:
    [0 <= pos <= stored length <= store capacity]. *)
Definition wf (p : BochanAudioPlayer) : Prop :=
  (sampleBufferPos p <= length (sampleBuffer p))%nat /\
  (length (sampleBuffer p) <= capacity p)%nat.

(** Modelled from the spec: [BochanAudioPlayer::initialize] is defined in
    BochanAudioPlayer.cpp, which is not part of the sources; a successful
    call allocates the store at [minBufferSize] and leaves it empty. *)
Definition initialize (minSize maxSize : nat) : BochanAudioPlayer :=
  {| initialized := true; playing := false;
     minBufferSize := minSize; maxBufferSize := maxSize;
     sampleBuffer := []; capacity := minSize; sampleBufferPos := 0 |}.

(** Modelled from the spec: [BochanAudioPlayer::queueData] is defined in
    BochanAudioPlayer.cpp, which is not part of the sources.  The call is
    refused (0 bytes queued) before [initialize] and when the unread bytes
    plus the new ones would exceed [maxBufferSize]; otherwise the bytes are
    appended, the store being rebased from the read cursor and grown when
    the current allocation is too small. *)
Definition queueData (p : BochanAudioPlayer) (buff : list byte)
  : nat * BochanAudioPlayer :=
  if negb (initialized p) then (0%nat, p)
  else if (maxBufferSize p <? length (unread p) + length buff)%nat then (0%nat, p)
  else if (capacity p <? length (sampleBuffer p) + length buff)%nat then
    (length buff,
     {| initialized := initialized p; playing := playing p;
        minBufferSize := minBufferSize p; maxBufferSize := maxBufferSize p;
        sampleBuffer := unread p ++ buff;
        capacity := Nat.max (capacity p) (length (unread p) + length buff);
        sampleBufferPos := 0 |})
  else
    (length buff,
     {| initialized := initialized p; playing := playing p;
        minBufferSize := minBufferSize p; maxBufferSize := maxBufferSize p;
        sampleBuffer := sampleBuffer p ++ buff;
        capacity := capacity p;
        sampleBufferPos := sampleBufferPos p |}).

(** Modelled from the spec: compaction, which is part of the absent
    BochanAudioPlayer.cpp, discards the consumed prefix before the cursor
    and keeps the unread bytes. *)
Definition compact (p : BochanAudioPlayer) : BochanAudioPlayer :=
  {| initialized := initialized p; playing := playing p;
     minBufferSize := minBufferSize p; maxBufferSize := maxBufferSize p;
     sampleBuffer := unread p;
     capacity := capacity p;
     sampleBufferPos := 0 |}.

Section Streaming.

(** The design only says that the store is compacted "periodically"; the
    moment is left to the implementation, so it is a parameter here and
    every statement below holds for every choice of it. *)
Variable compactNow : BochanAudioPlayer -> bool.

(** Modelled from the spec: [BochanAudioPlayer::fillData] is defined in
    BochanAudioPlayer.cpp, which is not part of the sources.  It copies up
    to [len] unread bytes starting at the cursor, advances the cursor,
    zero-fills the rest of the stream, and may compact the store. *)
Definition fillData (p : BochanAudioPlayer) (len : nat)
  : list byte * BochanAudioPlayer :=
  let n := Nat.min len (length (unread p)) in
  let stream := take n (unread p) ++ replicate (len - n) zero_byte in
  let p' :=
    {| initialized := initialized p; playing := playing p;
       minBufferSize := minBufferSize p; maxBufferSize := maxBufferSize p;
       sampleBuffer := sampleBuffer p;
       capacity := capacity p;
       sampleBufferPos := (sampleBufferPos p + n)%nat |} in
  (stream, if compactNow p' then compact p' else p').

(** A run of [queueData] calls: the counts returned and the final state. *)
Fixpoint queueAll (p : BochanAudioPlayer) (buffs : list (list byte))
  : list nat * BochanAudioPlayer :=
  match buffs with
  | [] => ([], p)
  | b :: rest =>
      let '(n, p1) := queueData p b in
      let '(ns, p2) := queueAll p1 rest in
      (n :: ns, p2)
  end.

(** A run of [fillData] calls: the streams written and the final state. *)
Fixpoint fillAll (p : BochanAudioPlayer) (lens : list nat)
  : list (list byte) * BochanAudioPlayer :=
  match lens with
  | [] => ([], p)
  | len :: rest =>
      let '(s, p1) := fillData p len in
      let '(ss, p2) := fillAll p1 rest in
      (s :: ss, p2)
  end.

End Streaming.

End Player.

(* ===================================================================== *)
(** * The encoder                                                          *)
(* ===================================================================== *)

(** ** Machine integers

    [int] is 32 bits wide and signed, [size_t] 64 bits wide and unsigned,
    [int64_t] 64 bits wide and signed.  A conversion to one of them is
    written out wherever the source performs one. *)

Definition wrap_unsigned (bits z : Z) : Z := z mod 2 ^ bits.
Definition wrap_signed (bits z : Z) : Z :=
  (z + 2 ^ (bits - 1)) mod 2 ^ bits - 2 ^ (bits - 1).

Definition INT_MAX : Z := 2147483647.
Definition to_int (z : Z) : Z := wrap_signed 32 z.
Definition to_int16 (z : Z) : Z := wrap_signed 16 z.
Definition to_int64 (z : Z) : Z := wrap_signed 64 z.
Definition to_size_t (z : Z) : Z := wrap_unsigned 64 z.
Definition sizeof_uint16_t : Z := 2.

(** ** Memory

    A region of memory is the list of its bytes.  Reads and writes outside
    the region have no defined behaviour and yield [None]. *)

Definition Memory := list byte.

Definition byte_val (b : byte) : Z := Z.of_N (Byte.to_N b).

Definition byte_of_Z (z : Z) : byte :=
  match Byte.of_N (Z.to_N (z mod 256)) with
  | Some b => b
  | None => x00
  end.

(** [memcpy(dst, src, n)]. *)
Definition memcpy (dst src : Memory) (n : Z) : option Memory :=
  if (0 <=? n) && (n <=? Z.of_nat (length src)) && (n <=? Z.of_nat (length dst))
  then Some (take (Z.to_nat n) src ++ drop (Z.to_nat n) dst)
  else None.

(** [reinterpret_cast<uint16_t*>(m)[k]], little endian. *)
Definition load_uint16 (m : Memory) (k : Z) : option Z :=
  if k <? 0 then None
  else
    match m !! Z.to_nat (2 * k), m !! Z.to_nat (2 * k + 1) with
    | Some lo, Some hi => Some (byte_val lo + 256 * byte_val hi)
    | _, _ => None
    end.

(** [reinterpret_cast<int16_t*>(m)[k]]. *)
Definition load_int16 (m : Memory) (k : Z) : option Z :=
  to_int16 <$> load_uint16 m k.

(** Writing the [width] low bytes of [v] at byte offset [off]. *)
Fixpoint le_bytes (width : nat) (v : Z) : list byte :=
  match width with
  | O => []
  | S w => byte_of_Z v :: le_bytes w (v / 256)
  end.

Definition store_bytes (m : Memory) (off : Z) (bs : list byte) : option Memory :=
  if (0 <=? off) && (off + Z.of_nat (length bs) <=? Z.of_nat (length m))
  then Some (take (Z.to_nat off) m ++ bs ++ drop (Z.to_nat off + length bs) m)
  else None.

(** [reinterpret_cast<uint16_t*>(m)[k] = v]. *)
Definition store_uint16 (m : Memory) (k v : Z) : option Memory :=
  store_bytes m (2 * k) (le_bytes 2 v).

(** A [float] is carried as its 32-bit IEEE-754 pattern. *)
Definition float32 := Z.

(** [reinterpret_cast<float*>(m)[k] = f]. *)
Definition store_float (m : Memory) (k : Z) (f : float32) : option Memory :=
  store_bytes m (4 * k) (le_bytes 4 f).

(** [reinterpret_cast<float*>(m)[k]]. *)
Definition load_float (m : Memory) (k : Z) : option float32 :=
  if k <? 0 then None
  else
    match m !! Z.to_nat (4 * k), m !! Z.to_nat (4 * k + 1),
          m !! Z.to_nat (4 * k + 2), m !! Z.to_nat (4 * k + 3) with
    | Some b0, Some b1, Some b2, Some b3 =>
        Some (byte_val b0 + 256 * (byte_val b1 + 256 * (byte_val b2 + 256 * byte_val b3)))
    | _, _, _, _ => None
    end.

(** A counted loop [for (int i = start; i < start + n; ++i) body]. *)
Fixpoint loop {S : Type} (n : nat) (i : Z) (body : Z -> S -> option S) (s : S)
  : option S :=
  match n with
  | O => Some s
  | Datatypes.S n' =>
      match body i s with
      | Some s' => loop n' (i + 1) body s'
      | None => None
      end
  end.

(** [for (int i = 0; i < bound; ++i) body]. *)
Definition for_int {S : Type} (bound : Z) (body : Z -> S -> option S) (s : S)
  : option S :=
  loop (Z.to_nat bound) 0 body s.

(** ** The collaborators' data *)

(** Modelled from the spec: the [ByteBuffer] class is declared outside the
    sources; it is a byte region with a used size, reached through
    [getPointer()] and [getUsedSize()].  [object_memory] is the memory that
    starts at the address of the [ByteBuffer] object itself, which is what
    a [ByteBuffer*] points at, and is distinct from the byte region that
    [getPointer()] returns. *)
Record ByteBuffer := mkByteBuffer {
  object_memory : Memory;
  getPointer : Memory;
  getUsedSize : Z
}.

(** libavutil's [enum AVSampleFormat]. *)
Inductive AVSampleFormat :=
| AV_SAMPLE_FMT_NONE
| AV_SAMPLE_FMT_U8
| AV_SAMPLE_FMT_S16
| AV_SAMPLE_FMT_S32
| AV_SAMPLE_FMT_FLT
| AV_SAMPLE_FMT_DBL
| AV_SAMPLE_FMT_U8P
| AV_SAMPLE_FMT_S16P
| AV_SAMPLE_FMT_S32P
| AV_SAMPLE_FMT_FLTP
| AV_SAMPLE_FMT_DBLP
| AV_SAMPLE_FMT_S64
| AV_SAMPLE_FMT_S64P.

(** The four layouts [encode] converts to. *)
Definition supported_layout (f : AVSampleFormat) : bool :=
  match f with
  | AV_SAMPLE_FMT_S16P | AV_SAMPLE_FMT_S16
  | AV_SAMPLE_FMT_FLTP | AV_SAMPLE_FMT_FLT => true
  | _ => false
  end.

(** libavcodec's [enum AVCodecID], by value. *)
Definition AVCodecID := Z.
Definition AV_CODEC_ID_NONE : AVCodecID := 0.

(** An [AVCodec*] that is not null: the descriptor's identity. *)
Definition AVCodec := Z.

(** Modelled from the spec: the [BochanCodec] enumeration is declared
    outside the sources; the encoder only names its [None] enumerator, the
    others are kept by their tag. *)
Module BochanCodec.
Inductive t := None | Tag (n : Z).
End BochanCodec.

(** What one [avcodec_receive_packet] call yields: its return value and the
    packet bytes it leaves in [packet] (for a negative value: nothing). *)
Definition Received : Type := Z * list byte.

Module AVCodecContext.
(** The fields of [AVCodecContext] the encoder touches; [pending] is the
    backend's queue of results for the coming [avcodec_receive_packet]
    calls, after which it answers [AVERROR(EAGAIN)]. *)
Record t := mk {
  sample_fmt : AVSampleFormat;
  bit_rate : Z;
  sample_rate : Z;
  channel_layout : Z;
  channels : Z;
  frame_size : Z;
  pending : list Received
}.
End AVCodecContext.

Module AVFrame.
(** The fields of [AVFrame] the encoder touches; [data] holds the data
    planes [data[0]], [data[1]], ... that are allocated. *)
Record t := mk {
  nb_samples : Z;
  format : AVSampleFormat;
  channel_layout : Z;
  channels : Z;
  data : list Memory
}.
End AVFrame.

Module AVPacket.
Record t := mk { data : list byte }.
End AVPacket.

Module Encoder.

(** ** The environment

    Everything [BochanEncoder.cpp] calls and does not define: the build
    mode, the constants and helpers of [CodecUtil], the libav entry points
    and the buffer pool.  The libav calls are described by what they return
    and by the object they leave behind; integers they return are [int]s. *)
Record Backend := mkBackend {
  (** whether [assert] is compiled out *)
  NDEBUG : bool;
  (** [CodecUtil] *)
  CHANNELS : Z;
  CHANNEL_LAYOUT : Z;
  DEFAULT_FRAMESIZE : Z;
  getCodecSampleFormat : BochanCodec.t -> AVSampleFormat;
  getCodecId : BochanCodec.t -> AVCodecID;
  isSampleRateSupported : AVCodec -> Z -> bool;
  isFormatSupported : AVCodec -> AVSampleFormat -> bool;
  int16ToFloat : Z -> float32;
  int16ToFloatBuffer : ByteBuffer -> Memory -> option Memory;
  (** libavcodec and libavutil *)
  avcodec_find_encoder : AVCodecID -> option AVCodec;
  avcodec_alloc_context3 : AVCodec -> option AVCodecContext.t;
  avcodec_open2 : AVCodecContext.t -> AVCodec -> Z * AVCodecContext.t;
  av_packet_alloc : option AVPacket.t;
  av_frame_alloc : option AVFrame.t;
  av_frame_get_buffer : AVFrame.t -> Z * list Memory;
  av_get_bytes_per_sample : AVSampleFormat -> Z;
  av_frame_make_writable : AVFrame.t -> Z;
  avcodec_send_frame : AVCodecContext.t -> AVFrame.t -> Z * AVCodecContext.t;
  AVERROR_EAGAIN : Z;
  AVERROR_EOF : Z;
  (** [BufferPool::getBuffer] *)
  getBuffer : Z -> ByteBuffer
}.

(** The members of [BochanEncoder]; a null pointer is [None]. *)
Record BochanEncoder := mkEncoder {
  initialized : bool;
  bochanCodec : BochanCodec.t;
  sampleRate : Z;
  bitRate : Z;
  sampleFormat : AVSampleFormat;
  codecId : AVCodecID;
  codec : option AVCodec;
  context : option AVCodecContext.t;
  packet : option AVPacket.t;
  frame : option AVFrame.t;
  bytesPerSample : Z
}.

(** The neutral defaults of every session field. *)
Definition neutral : BochanEncoder :=
  {| initialized := false;
     bochanCodec := BochanCodec.None;
     sampleRate := 0;
     bitRate := 0;
     sampleFormat := AV_SAMPLE_FMT_NONE;
     codecId := AV_CODEC_ID_NONE;
     codec := None;
     context := None;
     packet := None;
     frame := None;
     bytesPerSample := 0 |}.

Definition set_codec (e : BochanEncoder) (c : option AVCodec) : BochanEncoder :=
  {| initialized := initialized e; bochanCodec := bochanCodec e;
     sampleRate := sampleRate e; bitRate := bitRate e;
     sampleFormat := sampleFormat e; codecId := codecId e;
     codec := c; context := context e; packet := packet e; frame := frame e;
     bytesPerSample := bytesPerSample e |}.

Definition set_context (e : BochanEncoder) (c : option AVCodecContext.t)
  : BochanEncoder :=
  {| initialized := initialized e; bochanCodec := bochanCodec e;
     sampleRate := sampleRate e; bitRate := bitRate e;
     sampleFormat := sampleFormat e; codecId := codecId e;
     codec := codec e; context := c; packet := packet e; frame := frame e;
     bytesPerSample := bytesPerSample e |}.

Definition set_packet (e : BochanEncoder) (p : option AVPacket.t) : BochanEncoder :=
  {| initialized := initialized e; bochanCodec := bochanCodec e;
     sampleRate := sampleRate e; bitRate := bitRate e;
     sampleFormat := sampleFormat e; codecId := codecId e;
     codec := codec e; context := context e; packet := p; frame := frame e;
     bytesPerSample := bytesPerSample e |}.

Definition set_frame (e : BochanEncoder) (f : option AVFrame.t) : BochanEncoder :=
  {| initialized := initialized e; bochanCodec := bochanCodec e;
     sampleRate := sampleRate e; bitRate := bitRate e;
     sampleFormat := sampleFormat e; codecId := codecId e;
     codec := codec e; context := context e; packet := packet e; frame := f;
     bytesPerSample := bytesPerSample e |}.

(** [BochanEncoder::deinitialize] (lines 95-114).  [av_frame_free],
    [av_packet_free] and [avcodec_free_context] release the object and set
    the pointer they are given to null. *)
Definition deinitialize (e : BochanEncoder) : BochanEncoder :=
  {| initialized := false;
     frame := match frame e with Some _ => None | None => None end;
     packet := match packet e with Some _ => None | None => None end;
     context := match context e with Some _ => None | None => None end;
     sampleFormat := AV_SAMPLE_FMT_NONE;
     bytesPerSample := 0;
     codec := None;
     codecId := AV_CODEC_ID_NONE;
     bochanCodec := BochanCodec.None;
     sampleRate := 0;
     bitRate := 0 |}.

(** [BochanEncoder::isInitialized] and the plain getters (lines 116-130). *)
Definition isInitialized (e : BochanEncoder) : bool := initialized e.
Definition getCodec (e : BochanEncoder) : BochanCodec.t := bochanCodec e.
Definition getSampleRate (e : BochanEncoder) : Z := sampleRate e.
Definition getBitRate (e : BochanEncoder) : Z := bitRate e.

(** [BochanEncoder::getSamplesPerFrame] (lines 132-134); [None] is the
    dereference of a null [context]. *)
Definition getSamplesPerFrame (e : BochanEncoder) : option Z :=
  if initialized e then
    match context e with
    | Some ctx => Some (AVCodecContext.frame_size ctx)
    | None => None
    end
  else Some 0.

(** [BochanEncoder::getInputBufferByteSize] (lines 136-138).  The product
    is computed in [size_t] ([sizeof] yields one) and converted to the
    [int] the function returns. *)
Definition getInputBufferByteSize (e : BochanEncoder) : option Z :=
  if initialized e then
    match context e with
    | Some ctx =>
        Some (to_int
                (to_size_t
                   (to_size_t (to_size_t (AVCodecContext.frame_size ctx) * sizeof_uint16_t)
                    * to_size_t (AVCodecContext.channels ctx))))
    | None => None
    end
  else Some (to_int (to_size_t 0)).

Section WithBackend.

Variable B : Backend.

(** The context as lines 50-54 configure it before it is opened. *)
Definition configure (ctx : AVCodecContext.t) (sampleFormat : AVSampleFormat)
    (sampleRate bitRate : Z) : AVCodecContext.t :=
  {| AVCodecContext.sample_fmt := sampleFormat;
     AVCodecContext.bit_rate := to_int64 bitRate;
     AVCodecContext.sample_rate := sampleRate;
     AVCodecContext.channel_layout := CHANNEL_LAYOUT B;
     AVCodecContext.channels := CHANNELS B;
     AVCodecContext.frame_size := AVCodecContext.frame_size ctx;
     AVCodecContext.pending := AVCodecContext.pending ctx |}.

(** Lines 62-65: an unrestricted frame size becomes the default one. *)
Definition default_frame_size (ctx : AVCodecContext.t) : AVCodecContext.t :=
  if AVCodecContext.frame_size ctx =? 0 then
    {| AVCodecContext.sample_fmt := AVCodecContext.sample_fmt ctx;
       AVCodecContext.bit_rate := AVCodecContext.bit_rate ctx;
       AVCodecContext.sample_rate := AVCodecContext.sample_rate ctx;
       AVCodecContext.channel_layout := AVCodecContext.channel_layout ctx;
       AVCodecContext.channels := AVCodecContext.channels ctx;
       AVCodecContext.frame_size := DEFAULT_FRAMESIZE B;
       AVCodecContext.pending := AVCodecContext.pending ctx |}
  else ctx.

(** The frame as lines 78-81 describe it before its buffer is requested. *)
Definition describe_frame (fr : AVFrame.t) (ctx : AVCodecContext.t) : AVFrame.t :=
  {| AVFrame.nb_samples := AVCodecContext.frame_size ctx;
     AVFrame.format := AVCodecContext.sample_fmt ctx;
     AVFrame.channel_layout := AVCodecContext.channel_layout ctx;
     AVFrame.channels := AVCodecContext.channels ctx;
     AVFrame.data := AVFrame.data fr |}.

Definition with_data (fr : AVFrame.t) (d : list Memory) : AVFrame.t :=
  {| AVFrame.nb_samples := AVFrame.nb_samples fr;
     AVFrame.format := AVFrame.format fr;
     AVFrame.channel_layout := AVFrame.channel_layout fr;
     AVFrame.channels := AVFrame.channels fr;
     AVFrame.data := d |}.

(** The error exits of [initialize]: [deinitialize(); return false;]. *)
Definition fail (e : BochanEncoder) : bool * BochanEncoder :=
  (false, deinitialize e).

(** [BochanEncoder::initialize] (lines 11-93). *)
Definition initialize (e : BochanEncoder) (bochanCodec : BochanCodec.t)
    (sampleRate bitRate : Z) : bool * BochanEncoder :=
  let e := if initialized e then deinitialize e else e in
  let e :=
    {| initialized := initialized e;
       bochanCodec := bochanCodec;
       sampleRate := sampleRate;
       bitRate := bitRate;
       sampleFormat := getCodecSampleFormat B bochanCodec;
       codecId := getCodecId B bochanCodec;
       codec := codec e; context := context e; packet := packet e;
       frame := frame e; bytesPerSample := bytesPerSample e |} in
  if codecId e =? AV_CODEC_ID_NONE then fail e
  else
    let e := set_codec e (avcodec_find_encoder B (codecId e)) in
    match codec e with
    | None => fail e
    | Some c =>
      if negb (isSampleRateSupported B c sampleRate) then fail e
      else if negb (isFormatSupported B c (sampleFormat e)) then fail e
      else
        let e := set_context e (avcodec_alloc_context3 B c) in
        match context e with
        | None => fail e
        | Some ctx =>
          let '(ret, ctx) :=
            avcodec_open2 B (configure ctx (sampleFormat e) sampleRate bitRate) c in
          let e := set_context e (Some ctx) in
          if ret <? 0 then fail e
          else
            let ctx := default_frame_size ctx in
            let e := set_context e (Some ctx) in
            let e := set_packet e (av_packet_alloc B) in
            match packet e with
            | None => fail e
            | Some _ =>
              let e := set_frame e (av_frame_alloc B) in
              match frame e with
              | None => fail e
              | Some fr =>
                let fr := describe_frame fr ctx in
                let '(ret, planes) := av_frame_get_buffer B fr in
                let e := set_frame e (Some (with_data fr planes)) in
                if ret <? 0 then fail e
                else
                  (true,
                   {| initialized := true;
                      bochanCodec := Encoder.bochanCodec e;
                      sampleRate := Encoder.sampleRate e;
                      bitRate := Encoder.bitRate e;
                      sampleFormat := sampleFormat e;
                      codecId := codecId e;
                      codec := codec e; context := context e;
                      packet := packet e; frame := frame e;
                      bytesPerSample :=
                        av_get_bytes_per_sample B (AVCodecContext.sample_fmt ctx) |})
              end
            end
        end
    end.

(** How a call of [encode] ends: it returns its vector of packets, or the
    [assert] of line 154 fails and aborts the process, or the call has no
    defined behaviour (a null or out-of-bounds access). *)
Inductive Outcome :=
| Returned (packets : list ByteBuffer)
| AssertionFailed
| Undefined.

(** The [switch] of lines 168-204 either leaves converted planes behind,
    or reaches [default], or performs an undefined access. *)
Inductive Converted :=
| Planes (d : list Memory)
| Unsupported
| BadAccess.

Definition converted (o : option (list Memory)) : Converted :=
  match o with
  | Some d => Planes d
  | None => BadAccess
  end.

(** [frame->data[j]] *)
Definition plane_at (d : list Memory) (j : Z) : option Memory :=
  if j <? 0 then None else d !! Z.to_nat j.

(** Lines 171-176: the body of the two nested loops for planar 16-bit
    integers, [data[j][i] = uint16ptr[i * channels + j]]. *)
Definition s16p_store (fr : AVFrame.t) (samples : ByteBuffer) (i j : Z)
    (d : list Memory) : option (list Memory) :=
  v ← load_uint16 (getPointer samples) (to_int (i * AVFrame.channels fr + j));
  plane ← plane_at d j;
  plane' ← store_uint16 plane i v;
  Some (<[Z.to_nat j := plane']> d).

(** Lines 186-191: the same loops for planar floats,
    [data[j][i] = int16ToFloat(int16ptr[i * channels + j])]. *)
Definition fltp_store (fr : AVFrame.t) (samples : ByteBuffer) (i j : Z)
    (d : list Memory) : option (list Memory) :=
  v ← load_int16 (getPointer samples) (to_int (i * AVFrame.channels fr + j));
  plane ← plane_at d j;
  plane' ← store_float plane i (int16ToFloat B v);
  Some (<[Z.to_nat j := plane']> d).

Definition per_sample (fr : AVFrame.t)
    (store : Z -> Z -> list Memory -> option (list Memory))
    (d : list Memory) : option (list Memory) :=
  for_int (AVFrame.nb_samples fr)
    (fun i d => for_int (AVFrame.channels fr) (fun j d => store i j d) d) d.

(** The [switch (frame->format)] of lines 168-204. *)
Definition convert (fr : AVFrame.t) (samples : ByteBuffer) : Converted :=
  let d := AVFrame.data fr in
  match AVFrame.format fr with
  | AV_SAMPLE_FMT_S16P =>
      converted (per_sample fr (s16p_store fr samples) d)
  | AV_SAMPLE_FMT_S16 =>
      (* memcpy(frame->data[0], samples, samples->getUsedSize()) *)
      converted (plane ← plane_at d 0;
                 plane' ← memcpy plane (object_memory samples) (getUsedSize samples);
                 Some (<[0%nat := plane']> d))
  | AV_SAMPLE_FMT_FLTP =>
      converted (per_sample fr (fltp_store fr samples) d)
  | AV_SAMPLE_FMT_FLT =>
      converted (plane ← plane_at d 0;
                 plane' ← int16ToFloatBuffer B samples plane;
                 Some (<[0%nat := plane']> d))
  | _ => Unsupported
  end.

(** The buffer line 222-223 fills: a pool buffer holding the packet. *)
Definition packet_buffer (bytes : list byte) : option ByteBuffer :=
  let buff := getBuffer B (Z.of_nat (length bytes)) in
  m ← memcpy (getPointer buff) bytes (Z.of_nat (length bytes));
  Some {| object_memory := object_memory buff;
          getPointer := m;
          getUsedSize := getUsedSize buff |}.

(** The [while (true)] loop of lines 212-225 over the results the backend
    has pending; with none left it answers [AVERROR(EAGAIN)].  Returns the
    outcome, the packet object as the last call left it, and what is
    still pending. *)
Fixpoint receive_packets (pending : list Received) (result : list ByteBuffer)
  : Outcome * AVPacket.t * list Received :=
  match pending with
  | [] => (Returned result, AVPacket.mk [], [])
  | (ret, bytes) :: rest =>
      if (ret =? AVERROR_EAGAIN B) || (ret =? AVERROR_EOF B) then
        (Returned result, AVPacket.mk bytes, rest)
      else if ret <? 0 then
        (Returned [], AVPacket.mk bytes, rest)
      else
        match packet_buffer bytes with
        | Some buff => receive_packets rest (result ++ [buff])
        | None => (Undefined, AVPacket.mk bytes, rest)
        end
  end.

Definition with_pending (ctx : AVCodecContext.t) (q : list Received)
  : AVCodecContext.t :=
  {| AVCodecContext.sample_fmt := AVCodecContext.sample_fmt ctx;
     AVCodecContext.bit_rate := AVCodecContext.bit_rate ctx;
     AVCodecContext.sample_rate := AVCodecContext.sample_rate ctx;
     AVCodecContext.channel_layout := AVCodecContext.channel_layout ctx;
     AVCodecContext.channels := AVCodecContext.channels ctx;
     AVCodecContext.frame_size := AVCodecContext.frame_size ctx;
     AVCodecContext.pending := q |}.

(** Lines 161-162. *)
Definition expectedSamples (fr : AVFrame.t) : Z :=
  to_size_t (to_int (AVFrame.nb_samples fr * AVFrame.channels fr)).

Definition providedSamples (samples : ByteBuffer) : Z :=
  getUsedSize samples / sizeof_uint16_t.

(** The runtime size validation of lines 163-167: [true] when the input is
    rejected. *)
Definition size_rejected (fr : AVFrame.t) (samples : ByteBuffer) : bool :=
  negb (providedSamples samples =? expectedSamples fr).

(** Line 154: [true] when [assert] lets the call continue. *)
Definition assert_passes (e : BochanEncoder) (samples : ByteBuffer)
  : option bool :=
  if NDEBUG B then Some true
  else
    ibs ← getInputBufferByteSize e;
    Some (getUsedSize samples =? to_size_t ibs).

(** Lines 168-226: conversion, [avcodec_send_frame] and the receive loop,
    for an input that passed the size validation. *)
Definition convert_and_send (e : BochanEncoder) (fr : AVFrame.t)
    (samples : ByteBuffer) : Outcome * BochanEncoder :=
  match convert fr samples with
  | BadAccess => (Undefined, e)
  | Unsupported =>
      match context e with
      | Some _ => (Returned [], e)
      | None => (Undefined, e)
      end
  | Planes d =>
      let fr := with_data fr d in
      let e := set_frame e (Some fr) in
      match context e with
      | None => (Undefined, e)
      | Some ctx =>
          let '(ret, ctx) := avcodec_send_frame B ctx fr in
          let e := set_context e (Some ctx) in
          if ret <? 0 then (Returned [], e)
          else
            match packet e with
            | None => (Undefined, e)
            | Some _ =>
                let '(out, pkt, rest) :=
                  receive_packets (AVCodecContext.pending ctx) [] in
                (out, set_packet (set_context e (Some (with_pending ctx rest)))
                                 (Some pkt))
            end
      end
  end.

(** [BochanEncoder::encode] (lines 153-227). *)
Definition encode (e : BochanEncoder) (samples : ByteBuffer)
  : Outcome * BochanEncoder :=
  match assert_passes e samples with
  | None => (Undefined, e)
  | Some false => (AssertionFailed, e)
  | Some true =>
      match frame e with
      | None => (Undefined, e)
      | Some fr =>
          if av_frame_make_writable B fr <? 0 then (Returned [], e)
          else if size_rejected fr samples then (Returned [], e)
          else convert_and_send e fr samples
      end
  end.

(** The ways [initialize] can fail, one per error exit of lines 21-88. *)
Inductive InitFailure (bochanCodec : BochanCodec.t) (sampleRate bitRate : Z)
  : Prop :=
| unknown_codec_id :
    getCodecId B bochanCodec = AV_CODEC_ID_NONE ->
    InitFailure bochanCodec sampleRate bitRate
| missing_encoder :
    avcodec_find_encoder B (getCodecId B bochanCodec) = None ->
    InitFailure bochanCodec sampleRate bitRate
| unsupported_sample_rate c :
    avcodec_find_encoder B (getCodecId B bochanCodec) = Some c ->
    isSampleRateSupported B c sampleRate = false ->
    InitFailure bochanCodec sampleRate bitRate
| unsupported_sample_format c :
    avcodec_find_encoder B (getCodecId B bochanCodec) = Some c ->
    isFormatSupported B c (getCodecSampleFormat B bochanCodec) = false ->
    InitFailure bochanCodec sampleRate bitRate
| context_allocation_failed c :
    avcodec_find_encoder B (getCodecId B bochanCodec) = Some c ->
    avcodec_alloc_context3 B c = None ->
    InitFailure bochanCodec sampleRate bitRate
| open_failed c ctx :
    avcodec_find_encoder B (getCodecId B bochanCodec) = Some c ->
    avcodec_alloc_context3 B c = Some ctx ->
    (avcodec_open2 B
       (configure ctx (getCodecSampleFormat B bochanCodec) sampleRate bitRate) c).1 < 0 ->
    InitFailure bochanCodec sampleRate bitRate
| packet_allocation_failed :
    av_packet_alloc B = None ->
    InitFailure bochanCodec sampleRate bitRate
| frame_allocation_failed :
    av_frame_alloc B = None ->
    InitFailure bochanCodec sampleRate bitRate
| frame_buffer_allocation_failed c ctx fr :
    avcodec_find_encoder B (getCodecId B bochanCodec) = Some c ->
    avcodec_alloc_context3 B c = Some ctx ->
    av_frame_alloc B = Some fr ->
    (av_frame_get_buffer B
       (describe_frame fr
          (default_frame_size
             (avcodec_open2 B
                (configure ctx (getCodecSampleFormat B bochanCodec) sampleRate bitRate)
                c).2))).1 < 0 ->
    InitFailure bochanCodec sampleRate bitRate.

(** The frame size [initialize] negotiates with the backend: what
    [avcodec_open2] mandates, or the default when it mandates none. *)
Definition negotiated_frame_size (bochanCodec : BochanCodec.t)
    (sampleRate bitRate : Z) (c : AVCodec) (ctx : AVCodecContext.t) : Z :=
  let opened :=
    (avcodec_open2 B
       (configure ctx (getCodecSampleFormat B bochanCodec) sampleRate bitRate) c).2 in
  if AVCodecContext.frame_size opened =? 0 then DEFAULT_FRAMESIZE B
  else AVCodecContext.frame_size opened.

End WithBackend.

(** What a successful [initialize] establishes: the encoder is initialized,
    owns a context, a packet and a frame, and the frame was described from
    the context (lines 78-81). *)
Record Ready (e : BochanEncoder) (ctx : AVCodecContext.t) (fr : AVFrame.t)
  : Prop := mkReady {
  ready_initialized : initialized e = true;
  ready_context : context e = Some ctx;
  ready_frame : frame e = Some fr;
  ready_packet : is_Some (packet e);
  ready_nb_samples : AVFrame.nb_samples fr = AVCodecContext.frame_size ctx;
  ready_channels : AVFrame.channels fr = AVCodecContext.channels ctx;
  ready_format : AVFrame.format fr = AVCodecContext.sample_fmt ctx
}.

End Encoder.

(* ===================================================================== *)
(** * Concrete sessions                                                    *)
(* ===================================================================== *)

(** A small stereo backend to run the encoder on: it accepts every codec
    but [None] at 48 kHz, mandates the frame size it is given, allocates
    zeroed planes, and answers every frame with one packet made of the
    first four bytes of plane 0. *)
Module Scenario.
Import Encoder.

Definition bytes_per_sample (f : AVSampleFormat) : Z :=
  match f with
  | AV_SAMPLE_FMT_NONE => 0
  | AV_SAMPLE_FMT_U8 | AV_SAMPLE_FMT_U8P => 1
  | AV_SAMPLE_FMT_S16 | AV_SAMPLE_FMT_S16P => 2
  | AV_SAMPLE_FMT_S32 | AV_SAMPLE_FMT_S32P
  | AV_SAMPLE_FMT_FLT | AV_SAMPLE_FMT_FLTP => 4
  | AV_SAMPLE_FMT_DBL | AV_SAMPLE_FMT_DBLP
  | AV_SAMPLE_FMT_S64 | AV_SAMPLE_FMT_S64P => 8
  end.

Definition is_planar (f : AVSampleFormat) : bool :=
  match f with
  | AV_SAMPLE_FMT_U8P | AV_SAMPLE_FMT_S16P | AV_SAMPLE_FMT_S32P
  | AV_SAMPLE_FMT_FLTP | AV_SAMPLE_FMT_DBLP | AV_SAMPLE_FMT_S64P => true
  | _ => false
  end.

Definition zeroed (n : Z) : Memory := replicate (Z.to_nat n) x00.

Definition allocate_planes (fr : AVFrame.t) : list Memory :=
  let bps := bytes_per_sample (AVFrame.format fr) in
  if is_planar (AVFrame.format fr) then
    replicate (Z.to_nat (AVFrame.channels fr)) (zeroed (AVFrame.nb_samples fr * bps))
  else
    [zeroed (AVFrame.nb_samples fr * AVFrame.channels fr * bps)].

Definition blank_context : AVCodecContext.t :=
  AVCodecContext.mk AV_SAMPLE_FMT_NONE 0 0 0 0 0 [].

Definition blank_frame : AVFrame.t :=
  AVFrame.mk 0 AV_SAMPLE_FMT_NONE 0 0 [].

Definition with_frame_size (ctx : AVCodecContext.t) (n : Z) : AVCodecContext.t :=
  {| AVCodecContext.sample_fmt := AVCodecContext.sample_fmt ctx;
     AVCodecContext.bit_rate := AVCodecContext.bit_rate ctx;
     AVCodecContext.sample_rate := AVCodecContext.sample_rate ctx;
     AVCodecContext.channel_layout := AVCodecContext.channel_layout ctx;
     AVCodecContext.channels := AVCodecContext.channels ctx;
     AVCodecContext.frame_size := n;
     AVCodecContext.pending := AVCodecContext.pending ctx |}.

Definition backend (ndebug : bool) (fmt : AVSampleFormat) (frameSize : Z)
  : Backend :=
  {| NDEBUG := ndebug;
     CHANNELS := 2;
     CHANNEL_LAYOUT := 3;
     DEFAULT_FRAMESIZE := 1024;
     getCodecSampleFormat := fun _ => fmt;
     getCodecId := fun c =>
       match c with BochanCodec.None => AV_CODEC_ID_NONE | BochanCodec.Tag n => n end;
     isSampleRateSupported := fun _ rate => rate =? 48000;
     isFormatSupported := fun _ _ => true;
     int16ToFloat := fun v => wrap_unsigned 32 v;
     int16ToFloatBuffer := fun _ m => Some m;
     avcodec_find_encoder := fun id => if id =? AV_CODEC_ID_NONE then None else Some id;
     avcodec_alloc_context3 := fun _ => Some blank_context;
     avcodec_open2 := fun ctx _ => (0, with_frame_size ctx frameSize);
     av_packet_alloc := Some (AVPacket.mk []);
     av_frame_alloc := Some blank_frame;
     av_frame_get_buffer := fun fr => (0, allocate_planes fr);
     av_get_bytes_per_sample := bytes_per_sample;
     av_frame_make_writable := fun _ => 0;
     avcodec_send_frame := fun ctx fr =>
       (0, with_pending ctx [(0, take 4 (default [] (AVFrame.data fr !! 0%nat)))]);
     AVERROR_EAGAIN := -11;
     AVERROR_EOF := -541478725;
     getBuffer := fun n => mkByteBuffer (replicate 24 x00) (zeroed n) 0 |}.

(** The encoder after [initialize(codec, 48000, 64000)] on that backend. *)
Definition session (ndebug : bool) (fmt : AVSampleFormat) (frameSize : Z)
  : BochanEncoder :=
  (initialize (backend ndebug fmt frameSize) neutral (BochanCodec.Tag 1) 48000 64000).2.

(** Input buffers: eight bytes of audio (two stereo samples of 16 bits),
    and the same with a ninth byte in use.  The buffer object itself lies
    somewhere else in memory and holds other bytes. *)
Definition audio : Memory :=
  [x01; x02; x03; x04; x05; x06; x07; x08; x09; x0a; x0b; x0c].

Definition object_bytes : Memory :=
  [xa0; xa1; xa2; xa3; xa4; xa5; xa6; xa7; xa8; xa9; xaa; xab;
   xac; xad; xae; xaf; xb0; xb1; xb2; xb3; xb4; xb5; xb6; xb7].

Definition samples4 : ByteBuffer := mkByteBuffer object_bytes audio 4.
Definition samples8 : ByteBuffer := mkByteBuffer object_bytes audio 8.
Definition samples9 : ByteBuffer := mkByteBuffer object_bytes audio 9.

(** The context and the frame a session owns. *)
Definition session_context (ndebug : bool) (fmt : AVSampleFormat) (frameSize : Z)
  : AVCodecContext.t :=
  default blank_context (context (session ndebug fmt frameSize)).

Definition session_frame (ndebug : bool) (fmt : AVSampleFormat) (frameSize : Z)
  : AVFrame.t :=
  default blank_frame (frame (session ndebug fmt frameSize)).

(** A playback queue of 4 to 16 bytes that compacts once the cursor has
    passed half of the allocation, and two chunks to queue. *)
Definition compact_past_half (p : Player.BochanAudioPlayer) : bool :=
  (Player.capacity p <? 2 * Player.sampleBufferPos p)%nat.

Definition chunk1 : list byte := [x01; x02; x03].
Definition chunk2 : list byte := [x04; x05].

End Scenario.

(* ===================================================================== *)
(** * Out-of-band codec data                                               *)
(* ===================================================================== *)

Module Extradata.
Import Encoder.

(** The members [extradata] and [extradata_size] of [AVCodecContext], which
    the backend fills in when it opens the context and which
    [AVCodecContext.t] does not carry: [extradata] is the memory the
    pointer refers to ([None] for a null pointer), [extradata_size] the
    [int] beside it. *)
Record Members := mkMembers {
  extradata : AVCodecContext.t -> option Memory;
  extradata_size : AVCodecContext.t -> Z
}.

Section WithBackend.

Variable B : Backend.
Variable M : Members.

(** [BochanEncoder::hasExtradata] (lines 140-142); [None] is the
    dereference of a null [context], which [&&] only reaches when the
    encoder is initialized. *)
Definition hasExtradata (e : BochanEncoder) : option bool :=
  if initialized e then
    match context e with
    | Some ctx =>
        Some (match extradata M ctx with Some _ => true | None => false end)
    | None => None
    end
  else Some false.

(** [BochanEncoder::getExtradata] (lines 144-151).  The result is the
    pointer returned, [Some None] being [nullptr]; the outer [None] is an
    undefined access (a null [context], or a copy that leaves the source or
    the pool buffer). *)
Definition getExtradata (e : BochanEncoder) : option (option ByteBuffer) :=
  match hasExtradata e with
  | None => None
  | Some false => Some None
  | Some true =>
      match context e with
      | None => None
      | Some ctx =>
          let result := getBuffer B (extradata_size M ctx) in
          match extradata M ctx with
          | None => None
          | Some src =>
              match memcpy (getPointer result) src (extradata_size M ctx) with
              | Some m =>
                  Some (Some {| object_memory := object_memory result;
                                getPointer := m;
                                getUsedSize := getUsedSize result |})
              | None => None
              end
          end
      end
  end.

End WithBackend.

(** A backend that attaches a five-byte header, of which four are
    announced, to every context with a frame size of 2, and none to the
    others. *)
Definition header : Memory := [x11; x22; x33; x44; x55].

Definition members : Members :=
  {| extradata := fun ctx =>
       if AVCodecContext.frame_size ctx =? 2 then Some header else None;
     extradata_size := fun _ => 4 |}.

End Extradata.

(* ===================================================================== *)
(** * More concrete sessions                                               *)
(* ===================================================================== *)

Module Cases.
Import Encoder Scenario.

(** A backend with another answer to [avcodec_send_frame]. *)
Definition with_send_frame (B : Backend)
    (send : AVCodecContext.t -> AVFrame.t -> Z * AVCodecContext.t) : Backend :=
  {| NDEBUG := NDEBUG B;
     CHANNELS := CHANNELS B;
     CHANNEL_LAYOUT := CHANNEL_LAYOUT B;
     DEFAULT_FRAMESIZE := DEFAULT_FRAMESIZE B;
     getCodecSampleFormat := getCodecSampleFormat B;
     getCodecId := getCodecId B;
     isSampleRateSupported := isSampleRateSupported B;
     isFormatSupported := isFormatSupported B;
     int16ToFloat := int16ToFloat B;
     int16ToFloatBuffer := int16ToFloatBuffer B;
     avcodec_find_encoder := avcodec_find_encoder B;
     avcodec_alloc_context3 := avcodec_alloc_context3 B;
     avcodec_open2 := avcodec_open2 B;
     av_packet_alloc := av_packet_alloc B;
     av_frame_alloc := av_frame_alloc B;
     av_frame_get_buffer := av_frame_get_buffer B;
     av_get_bytes_per_sample := av_get_bytes_per_sample B;
     av_frame_make_writable := av_frame_make_writable B;
     avcodec_send_frame := send;
     AVERROR_EAGAIN := AVERROR_EAGAIN B;
     AVERROR_EOF := AVERROR_EOF B;
     getBuffer := getBuffer B |}.

(** The stereo backend for planar 16-bit integers, except that after the
    packet made of the first four bytes of plane 0 the next receive call
    fails with [AVERROR(EINVAL)]. *)
Definition failing_backend : Backend :=
  with_send_frame (backend true AV_SAMPLE_FMT_S16P 2)
    (fun ctx fr =>
       (0, with_pending ctx
             [(0, take 4 (default [] (AVFrame.data fr !! 0%nat))); (-22, [])])).

Definition failing_session : BochanEncoder :=
  (initialize failing_backend neutral (BochanCodec.Tag 1) 48000 64000).2.

Definition failing_context : AVCodecContext.t :=
  default blank_context (context failing_session).

Definition failing_frame : AVFrame.t :=
  default blank_frame (frame failing_session).

(** The planes the eight audio bytes are converted to, and the packet the
    stereo backend makes of them. *)
Definition planes8 : list Memory :=
  [[x01; x02; x05; x06]; [x03; x04; x07; x08]].

Definition packet8 : Received := (0, [x01; x02; x05; x06]).

(** An input that shares its first eight bytes with [audio] and nothing
    else: other bytes behind them, another used size, no object bytes. *)
Definition samples8_other : ByteBuffer :=
  mkByteBuffer [] [x01; x02; x03; x04; x05; x06; x07; x08; xff; xfe] 3.

(** An initialized encoder whose context asks for 2^30 samples per frame
    on 2 channels. *)
Definition wide_context : AVCodecContext.t :=
  AVCodecContext.mk AV_SAMPLE_FMT_S16 64000 48000 3 2 1073741824 [].

Definition wide_encoder : BochanEncoder :=
  {| initialized := true;
     bochanCodec := BochanCodec.Tag 1;
     sampleRate := 48000;
     bitRate := 64000;
     sampleFormat := AV_SAMPLE_FMT_S16;
     codecId := 1;
     codec := Some 1;
     context := Some wide_context;
     packet := Some (AVPacket.mk []);
     frame := None;
     bytesPerSample := 2 |}.

End Cases.

(* ===================================================================== *)
(** * Properties of the playback queue                                     *)
(* ===================================================================== *)

Module PlayerProperties.
Import Player.

Local Open Scope nat_scope.

Lemma initialize_wf minSize maxSize : wf (initialize minSize maxSize).
Proof. split; simpl; lia. Qed.

Lemma initialize_unread minSize maxSize : unread (initialize minSize maxSize) = [].
Proof. reflexivity. Qed.

Lemma compact_unread p : unread (compact p) = unread p.
Proof. unfold unread, compact; simpl. by rewrite drop_0. Qed.

Lemma compact_wf p : wf p -> wf (compact p).
Proof.
  intros [Hpos Hcap]. split; simpl; [lia|].
  unfold unread. rewrite length_drop. lia.
Qed.

(** An accepted [queueData] appends to the unread bytes. *)
Lemma queueData_accepted p buff :
  wf p -> initialized p = true ->
  length (unread p) + length buff <= maxBufferSize p ->
  (queueData p buff).1 = length buff /\
  unread (queueData p buff).2 = unread p ++ buff /\
  wf (queueData p buff).2 /\
  initialized (queueData p buff).2 = true /\
  maxBufferSize (queueData p buff).2 = maxBufferSize p.
Proof.
  intros [Hpos Hcap] Hinit Hmax. unfold queueData. rewrite Hinit. simpl.
  destruct (Nat.ltb_spec (maxBufferSize p) (length (unread p) + length buff)) as [?|_];
    [lia|].
  destruct (Nat.ltb_spec (capacity p) (length (sampleBuffer p) + length buff)) as [Hgrow|Hfit];
    simpl.
  - split_and!; try done.
    split; simpl; [lia|]. rewrite length_app. lia.
  - split_and!; try done.
    + unfold unread; simpl. by rewrite drop_app_le.
    + split; simpl; rewrite length_app; lia.
Qed.

(** A rejected [queueData] queues nothing and changes nothing. *)
Lemma queueData_rejected p buff :
  maxBufferSize p < length (unread p) + length buff ->
  queueData p buff = (0, p).
Proof.
  intros Hover. unfold queueData. destruct (initialized p); simpl; [|done].
  destruct (Nat.ltb_spec (maxBufferSize p) (length (unread p) + length buff)); [done|lia].
Qed.

Section Streaming.

Variable compactNow : BochanAudioPlayer -> bool.

(** The stream [fillData] writes: the unread bytes it can serve, then
    silence up to [len]. *)
Lemma fillData_stream p len :
  (fillData compactNow p len).1 =
  take len (unread p) ++ replicate (len - length (unread p)) zero_byte.
Proof.
  unfold fillData; simpl.
  destruct (Nat.min_spec len (length (unread p))) as [[Hlt ->]|[Hge ->]].
  - by replace (len - length (unread p)) with (len - len) by lia.
  - by rewrite !firstn_all2 by lia.
Qed.

Lemma fillData_length p len : length (fillData compactNow p len).1 = len.
Proof.
  rewrite fillData_stream, length_app, length_take, length_replicate. lia.
Qed.

(** What [fillData] leaves unread, whether or not it compacts. *)
Lemma fillData_unread p len :
  unread (fillData compactNow p len).2 = drop len (unread p).
Proof.
  unfold fillData; simpl.
  match goal with |- unread (if compactNow ?q then _ else _) = _ => set (p' := q) end.
  assert (unread p' = drop len (unread p)) as Hp'.
  { unfold p', unread at 1 3; simpl. rewrite drop_drop.
    destruct (Nat.min_spec len (length (unread p))) as [[Hlt ->]|[Hge ->]]; [done|].
    unfold unread in *. rewrite length_drop in *.
    rewrite !drop_ge; [done| |]; lia. }
  destruct (compactNow p'); [by rewrite compact_unread|done].
Qed.

Lemma fillData_wf p len : wf p -> wf (fillData compactNow p len).2.
Proof.
  intros [Hpos Hcap]. unfold fillData; simpl.
  match goal with |- wf (if compactNow ?q then _ else _) => set (p' := q) end.
  assert (wf p') as Hwf.
  { split; simpl; [|done].
    unfold unread. rewrite length_drop. lia. }
  destruct (compactNow p'); [by apply compact_wf|done].
Qed.

Lemma fillData_fields p len :
  initialized (fillData compactNow p len).2 = initialized p /\
  maxBufferSize (fillData compactNow p len).2 = maxBufferSize p.
Proof.
  unfold fillData; simpl.
  match goal with |- context [if compactNow ?q then _ else _] => destruct (compactNow q) end;
    done.
Qed.

Lemma fillAll_cons p len rest :
  fillAll compactNow p (len :: rest) =
  ((fillData compactNow p len).1 :: (fillAll compactNow (fillData compactNow p len).2 rest).1,
   (fillAll compactNow (fillData compactNow p len).2 rest).2).
Proof.
  cbn [fillAll]. destruct (fillData compactNow p len) as [s p1]. cbn [fst snd].
  by destruct (fillAll compactNow p1 rest).
Qed.

Lemma queueAll_cons p b rest :
  queueAll p (b :: rest) =
  ((queueData p b).1 :: (queueAll (queueData p b).2 rest).1,
   (queueAll (queueData p b).2 rest).2).
Proof.
  cbn [queueAll]. destruct (queueData p b) as [n p1]. cbn [fst snd].
  by destruct (queueAll p1 rest).
Qed.

(** A run of accepted [queueData] calls appends every buffer in order. *)
Lemma queueAll_accepted buffs : forall p,
  wf p -> initialized p = true ->
  length (unread p) + length (concat buffs) <= maxBufferSize p ->
  (queueAll p buffs).1 = length <$> buffs /\
  unread (queueAll p buffs).2 = unread p ++ concat buffs /\
  wf (queueAll p buffs).2 /\
  initialized (queueAll p buffs).2 = true /\
  maxBufferSize (queueAll p buffs).2 = maxBufferSize p.
Proof.
  induction buffs as [|b rest IH]; intros p Hwf Hinit Hmax.
  - simpl. by rewrite app_nil_r.
  - rewrite queueAll_cons. cbn [fst snd concat fmap list_fmap] in *.
    rewrite length_app in Hmax.
    destruct (queueData_accepted p b Hwf Hinit) as (Hn & Hu & Hwf1 & Hinit1 & Hmax1); [lia|].
    destruct (IH (queueData p b).2 Hwf1 Hinit1) as (Hns & Hu2 & Hwf2 & Hinit2 & Hmax2).
    { rewrite Hu, length_app, Hmax1. lia. }
    split_and!; try done.
    + by rewrite Hn, Hns.
    + by rewrite Hu2, Hu, <- app_assoc.
    + by rewrite Hmax2.
Qed.

(** A run of [fillData] calls that never asks for more than is queued
    hands the unread bytes out in order. *)
Lemma fillAll_served lens : forall p,
  sum_list lens <= length (unread p) ->
  concat (fillAll compactNow p lens).1 = take (sum_list lens) (unread p) /\
  unread (fillAll compactNow p lens).2 = drop (sum_list lens) (unread p).
Proof.
  induction lens as [|len rest IH]; intros p Hsum.
  - simpl. by rewrite drop_0.
  - rewrite fillAll_cons. cbn [fst snd sum_list sum_list_with concat id] in *.
    specialize (IH (fillData compactNow p len).2).
    rewrite fillData_unread, length_drop in IH.
    destruct IH as [Hc Hd]; [lia|].
    rewrite Hc, Hd, fillData_stream, drop_drop.
    replace (len - length (unread p)) with 0 by lia.
    cbn [replicate]. rewrite app_nil_r.
    by rewrite take_take_drop.
Qed.

(** C1.  Starting from a queue with nothing unread, [queueData] calls whose
    total byte count is at most [maxBufferSize] are all accepted in full,
    and [fillData] calls that together ask for exactly that many bytes
    return the queued bytes, concatenated in the order they were queued,
    with no silence byte among them. *)
Theorem queue_then_fill_reproduces (p : BochanAudioPlayer)
    (buffs : list (list byte)) (lens : list nat) :
  wf p -> initialized p = true -> unread p = [] ->
  length (concat buffs) <= maxBufferSize p ->
  sum_list lens = length (concat buffs) ->
  (queueAll p buffs).1 = length <$> buffs /\
  concat (fillAll compactNow (queueAll p buffs).2 lens).1 = concat buffs.
Proof.
  intros Hwf Hinit Hempty Hmax Hsum.
  destruct (queueAll_accepted buffs p Hwf Hinit) as (Hns & Hu & _).
  { rewrite Hempty. simpl. lia. }
  split; [done|].
  rewrite Hempty in Hu; simpl in Hu.
  destruct (fillAll_served lens (queueAll p buffs).2) as [Hc _].
  { rewrite Hu. lia. }
  rewrite Hc, Hu, Hsum. by rewrite firstn_all.
Qed.

(** C2.  When [fillData] is asked for [len] bytes and fewer are unread, the
    stream it writes is all the unread bytes followed by zero bytes up to
    [len]; and whatever is queued after that call is served, from its
    first byte, by the next [fillData] calls. *)
Theorem fillData_underrun_zero_fills (p : BochanAudioPlayer) (len : nat) :
  wf p -> initialized p = true -> length (unread p) < len ->
  (fillData compactNow p len).1 =
    unread p ++ replicate (len - length (unread p)) zero_byte /\
  length (fillData compactNow p len).1 = len /\
  forall buff : list byte,
    length buff <= maxBufferSize p ->
    let p1 := (fillData compactNow p len).2 in
    (queueData p1 buff).1 = length buff /\
    forall len2 : nat,
      (fillData compactNow (queueData p1 buff).2 len2).1 =
        take len2 buff ++ replicate (len2 - length buff) zero_byte.
Proof.
  intros Hwf Hinit Hshort.
  split; [|split].
  - rewrite fillData_stream. by rewrite firstn_all2 by lia.
  - apply fillData_length.
  - intros buff Hfits p1.
    pose proof (fillData_unread p len) as Hu.
    pose proof (fillData_wf p len Hwf) as Hwf1.
    destruct (fillData_fields p len) as [Hinit1 Hmax1].
    fold p1 in Hu, Hwf1, Hinit1, Hmax1.
    rewrite drop_ge in Hu by lia.
    destruct (queueData_accepted p1 buff Hwf1) as (Hn & Hu2 & _).
    { by rewrite Hinit1. }
    { rewrite Hu, Hmax1. simpl. lia. }
    split; [done|].
    intros len2. rewrite fillData_stream, Hu2, Hu. done.
Qed.

(** Two chunks queued into a fresh queue, then two [fillData] calls: the
    first returns the first [len1] bytes queued, the second what follows,
    each padded with zero bytes when the queue runs out.  The scenario of
    the design document is the instance with chunks of 8000 bytes, a queue
    of 4096 to 65536 bytes and two requests of 10000 bytes: the second
    call returns the remaining 6000 bytes followed by 4000 zero bytes. *)
Lemma two_chunks_two_fills minSize maxSize (a b : list byte) len1 len2 :
  length a + length b <= maxSize ->
  let p1 := (queueData (initialize minSize maxSize) a).2 in
  let p2 := (queueData p1 b).2 in
  let p3 := (fillData compactNow p2 len1).2 in
  (queueData (initialize minSize maxSize) a).1 = length a /\
  (queueData p1 b).1 = length b /\
  (fillData compactNow p2 len1).1 =
    take len1 (a ++ b) ++ replicate (len1 - length (a ++ b)) zero_byte /\
  (fillData compactNow p3 len2).1 =
    take len2 (drop len1 (a ++ b)) ++
    replicate (len2 - (length (a ++ b) - len1)) zero_byte.
Proof.
  intros Hfits p1 p2 p3.
  destruct (queueData_accepted (initialize minSize maxSize) a
              (initialize_wf _ _) eq_refl)
    as (Hn1 & Hu1 & Hwf1 & Hinit1 & Hmax1).
  { rewrite initialize_unread. simpl. lia. }
  fold p1 in Hu1, Hwf1, Hinit1, Hmax1. rewrite initialize_unread in Hu1. simpl in Hu1.
  destruct (queueData_accepted p1 b Hwf1 Hinit1) as (Hn2 & Hu2 & _).
  { rewrite Hu1, Hmax1. simpl. lia. }
  fold p2 in Hu2. rewrite Hu1 in Hu2.
  split_and!; [done|done| |].
  - by rewrite fillData_stream, Hu2.
  - rewrite fillData_stream. unfold p3. rewrite fillData_unread, Hu2.
    by rewrite length_drop.
Qed.

End Streaming.

End PlayerProperties.

(* ===================================================================== *)
(** * Properties of the encoder                                            *)
(* ===================================================================== *)

Module EncoderProperties.
Import Encoder.

(** ** Machine integers *)

Lemma wrap_signed_small bits z :
  0 < bits -> - 2 ^ (bits - 1) <= z < 2 ^ (bits - 1) -> wrap_signed bits z = z.
Proof.
  intros Hbits Hz. unfold wrap_signed.
  assert (2 ^ bits = 2 * 2 ^ (bits - 1)) as Hpow.
  { rewrite <- Z.pow_succ_r by lia. f_equal. lia. }
  rewrite Z.mod_small by lia. lia.
Qed.

Lemma wrap_unsigned_small bits z :
  0 <= z < 2 ^ bits -> wrap_unsigned bits z = z.
Proof. intros Hz. unfold wrap_unsigned. by apply Z.mod_small. Qed.

Lemma to_int_small z : - 2147483648 <= z <= INT_MAX -> to_int z = z.
Proof. unfold INT_MAX. intros Hz. apply wrap_signed_small; lia. Qed.

Lemma to_size_t_small z : 0 <= z < 2 ^ 64 -> to_size_t z = z.
Proof. apply wrap_unsigned_small. Qed.

(** Narrowing a [size_t] to [int] only keeps the low 32 bits, so it does
    not matter whether the arithmetic is done in [size_t] or in Z. *)
Lemma to_int_to_size_t z : to_int (to_size_t z) = to_int z.
Proof.
  unfold to_int, to_size_t, wrap_signed, wrap_unsigned.
  f_equal.
  rewrite (Zplus_mod (z mod _)), Z.mod_mod_divide, <- Zplus_mod; [done|].
  by exists (2 ^ 32).
Qed.

Lemma to_size_t_mul_l a b : to_size_t (to_size_t a * b) = to_size_t (a * b).
Proof. unfold to_size_t, wrap_unsigned. by rewrite Zmult_mod_idemp_l. Qed.

Lemma to_size_t_mul_r a b : to_size_t (a * to_size_t b) = to_size_t (a * b).
Proof. unfold to_size_t, wrap_unsigned. by rewrite Zmult_mod_idemp_r. Qed.

(** ** Memory *)

Lemma byte_val_range b : 0 <= byte_val b < 256.
Proof.
  unfold byte_val. pose proof (Byte.to_N_bounded b). lia.
Qed.

Lemma byte_val_of_Z z : byte_val (byte_of_Z z) = z mod 256.
Proof.
  unfold byte_val, byte_of_Z.
  pose proof (Z.mod_pos_bound z 256 ltac:(lia)) as Hz.
  destruct (Byte.of_N (Z.to_N (z mod 256))) as [b|] eqn:Hb.
  - apply Byte.to_of_N in Hb. rewrite Hb. lia.
  - apply Byte.of_N_None_iff in Hb. lia.
Qed.

Lemma length_le_bytes w v : length (le_bytes w v) = w.
Proof. revert v. induction w as [|w IH]; intros v; simpl; [done|by rewrite IH]. Qed.

Lemma store_bytes_Some m off bs :
  0 <= off -> off + Z.of_nat (length bs) <= Z.of_nat (length m) ->
  store_bytes m off bs =
  Some (take (Z.to_nat off) m ++ bs ++ drop (Z.to_nat off + length bs) m).
Proof.
  intros Hoff Hfit. unfold store_bytes.
  destruct (Z.leb_spec 0 off); [|lia].
  by destruct (Z.leb_spec (off + Z.of_nat (length bs)) (Z.of_nat (length m))); [|lia].
Qed.

Lemma store_bytes_inv m off bs m' :
  store_bytes m off bs = Some m' ->
  0 <= off /\ off + Z.of_nat (length bs) <= Z.of_nat (length m) /\
  m' = take (Z.to_nat off) m ++ bs ++ drop (Z.to_nat off + length bs) m.
Proof.
  unfold store_bytes.
  destruct (Z.leb_spec 0 off); [|done].
  destruct (Z.leb_spec (off + Z.of_nat (length bs)) (Z.of_nat (length m))); [|done].
  intros [= <-]. done.
Qed.

Lemma store_bytes_length (m : list byte) off bs (m' : list byte) :
  store_bytes m off bs = Some m' -> length m' = length m.
Proof.
  intros (Hoff & Hfit & ->)%store_bytes_inv.
  rewrite !length_app, length_take, length_drop. lia.
Qed.

Lemma store_bytes_lookup_in (m : list byte) off bs (m' : list byte) k :
  store_bytes m off bs = Some m' -> (k < length bs)%nat ->
  m' !! (Z.to_nat off + k)%nat = bs !! k.
Proof.
  intros (Hoff & Hfit & ->)%store_bytes_inv Hk.
  rewrite lookup_app_r by (rewrite length_take; lia).
  rewrite length_take.
  replace (Z.to_nat off + k - Z.to_nat off `min` length m)%nat with k by lia.
  by rewrite lookup_app_l.
Qed.

Lemma store_bytes_lookup_out (m : list byte) off bs (m' : list byte) n :
  store_bytes m off bs = Some m' ->
  (n < Z.to_nat off \/ Z.to_nat off + length bs <= n)%nat ->
  m' !! n = m !! n.
Proof.
  intros (Hoff & Hfit & ->)%store_bytes_inv [Hlt|Hge].
  - rewrite lookup_app_l by (rewrite length_take; lia).
    by rewrite lookup_take_lt.
  - rewrite lookup_app_r by (rewrite length_take; lia).
    rewrite lookup_app_r by (rewrite length_take; lia).
    rewrite lookup_drop, length_take. f_equal. lia.
Qed.

(** A 16-bit store is read back at its index, reduced to 16 bits, and
    leaves the other indices alone. *)
Lemma store_uint16_ok (m : list byte) k v :
  0 <= k -> 2 * (k + 1) <= Z.of_nat (length m) ->
  exists m' : list byte,
    store_uint16 m k v = Some m' /\ length m' = length m /\
    load_uint16 m' k = Some (v mod 65536) /\
    forall k', 0 <= k' -> k' <> k -> load_uint16 m' k' = load_uint16 m k'.
Proof.
  intros Hk Hfit. unfold store_uint16.
  assert (store_bytes m (2 * k) (le_bytes 2 v) = Some
            (take (Z.to_nat (2 * k)) m ++ le_bytes 2 v ++
             drop (Z.to_nat (2 * k) + length (le_bytes 2 v)) m)) as Hst.
  { apply store_bytes_Some; rewrite ?length_le_bytes; lia. }
  eexists. split; [exact Hst|]. split_and!.
  - by apply (store_bytes_length _ _ _ _ Hst).
  - unfold load_uint16. destruct (Z.ltb_spec k 0); [lia|].
    replace (Z.to_nat (2 * k + 1)) with (Z.to_nat (2 * k) + 1)%nat by lia.
    rewrite <- (Nat.add_0_r (Z.to_nat (2 * k))) at 1.
    rewrite !(store_bytes_lookup_in _ _ _ _ _ Hst) by (rewrite length_le_bytes; lia).
    cbn [le_bytes lookup list_lookup]. rewrite !byte_val_of_Z. f_equal.
    change 65536 with (256 * 256). rewrite Z.rem_mul_r by lia. done.
  - intros k' Hk' Hne. unfold load_uint16. destruct (Z.ltb_spec k' 0); [lia|].
    rewrite !(store_bytes_lookup_out _ _ _ _ _ Hst); [done| |];
      rewrite length_le_bytes; lia.
Qed.

(** The same for a 32-bit float pattern. *)
Lemma store_float_ok (m : list byte) k v :
  0 <= k -> 4 * (k + 1) <= Z.of_nat (length m) ->
  exists m' : list byte,
    store_float m k v = Some m' /\ length m' = length m /\
    load_float m' k = Some (wrap_unsigned 32 v) /\
    forall k', 0 <= k' -> k' <> k -> load_float m' k' = load_float m k'.
Proof.
  intros Hk Hfit. unfold store_float.
  assert (store_bytes m (4 * k) (le_bytes 4 v) = Some
            (take (Z.to_nat (4 * k)) m ++ le_bytes 4 v ++
             drop (Z.to_nat (4 * k) + length (le_bytes 4 v)) m)) as Hst.
  { apply store_bytes_Some; rewrite ?length_le_bytes; lia. }
  eexists. split; [exact Hst|]. split_and!.
  - by apply (store_bytes_length _ _ _ _ Hst).
  - unfold load_float. destruct (Z.ltb_spec k 0); [lia|].
    replace (Z.to_nat (4 * k + 1)) with (Z.to_nat (4 * k) + 1)%nat by lia.
    replace (Z.to_nat (4 * k + 2)) with (Z.to_nat (4 * k) + 2)%nat by lia.
    replace (Z.to_nat (4 * k + 3)) with (Z.to_nat (4 * k) + 3)%nat by lia.
    rewrite <- (Nat.add_0_r (Z.to_nat (4 * k))) at 1.
    rewrite !(store_bytes_lookup_in _ _ _ _ _ Hst) by (rewrite length_le_bytes; lia).
    cbn [le_bytes lookup list_lookup]. rewrite !byte_val_of_Z. f_equal.
    unfold wrap_unsigned. change (2 ^ 32) with (256 * (256 * (256 * 256))).
    rewrite !Z.rem_mul_r by lia. done.
  - intros k' Hk' Hne. unfold load_float. destruct (Z.ltb_spec k' 0); [lia|].
    rewrite !(store_bytes_lookup_out _ _ _ _ _ Hst); [done| | | |];
      rewrite length_le_bytes; lia.
Qed.

(** ** Counted loops *)

Lemma loop_invariant {S : Type} (P : Z -> S -> Prop) (body : Z -> S -> option S) n :
  forall i0 s,
    P i0 s ->
    (forall i s, i0 <= i < i0 + Z.of_nat n -> P i s ->
                 exists s', body i s = Some s' /\ P (i + 1) s') ->
    exists s', loop n i0 body s = Some s' /\ P (i0 + Z.of_nat n) s'.
Proof.
  induction n as [|n IH]; intros i0 s Hs Hstep.
  - exists s. split; [done|]. by rewrite Z.add_0_r.
  - destruct (Hstep i0 s ltac:(lia) Hs) as (s1 & Hbody & Hs1).
    destruct (IH (i0 + 1) s1 Hs1) as (s2 & Hloop & Hs2).
    { intros i s' Hi. apply Hstep. lia. }
    exists s2. cbn [loop]. rewrite Hbody. split; [done|].
    by replace (i0 + Z.of_nat (Datatypes.S n)) with (i0 + 1 + Z.of_nat n) by lia.
Qed.

Lemma for_int_invariant {S : Type} (P : Z -> S -> Prop) (body : Z -> S -> option S)
    bound s :
  0 <= bound -> P 0 s ->
  (forall i s, 0 <= i < bound -> P i s -> exists s', body i s = Some s' /\ P (i + 1) s') ->
  exists s', for_int bound body s = Some s' /\ P bound s'.
Proof.
  intros Hb Hs Hstep. unfold for_int.
  destruct (loop_invariant P body (Z.to_nat bound) 0 s Hs) as (s' & Hloop & Hs').
  { intros i s0 Hi. apply Hstep. lia. }
  exists s'. split; [done|]. by replace bound with (0 + Z.of_nat (Z.to_nat bound)) by lia.
Qed.

(** ** De-interleaving

    The two nested loops of the planar branches, for any cell width: a
    value read for sample [i] of channel [j] ends up in cell [i] of plane
    [j]. *)
Section Deinterleave.

Variable width : Z.
Variable load : list byte -> Z -> option Z.
Variable store : list byte -> Z -> Z -> option (list byte).
Variable norm : Z -> Z.

Hypothesis width_nonneg : 0 <= width.
Hypothesis store_ok : forall (m : list byte) k v,
  0 <= k -> width * (k + 1) <= Z.of_nat (length m) ->
  exists m' : list byte,
    store m k v = Some m' /\ length m' = length m /\
    load m' k = Some (norm v) /\
    forall k', 0 <= k' -> k' <> k -> load m' k' = load m k'.

Variables nb ch : Z.
Variable read : Z -> Z -> option Z.
Variable val : Z -> Z -> Z.
Variable body : Z -> Z -> list (list byte) -> option (list (list byte)).

Hypothesis body_eq : forall i j d,
  body i j d =
  (v ← read i j; plane ← plane_at d j; plane' ← store plane i v;
   Some (<[Z.to_nat j := plane']> d)).
Hypothesis read_ok : forall i j,
  0 <= i < nb -> 0 <= j < ch -> read i j = Some (val i j).

Lemma deinterleave_loops (d0 : list (list byte)) :
  0 <= nb -> 0 <= ch ->
  (Z.to_nat ch <= length d0)%nat ->
  (forall j (plane : list byte),
     0 <= j < ch -> d0 !! Z.to_nat j = Some plane ->
     width * nb <= Z.of_nat (length plane)) ->
  exists d',
    for_int nb (fun i d => for_int ch (fun j d => body i j d) d) d0 = Some d' /\
    length d' = length d0 /\
    forall i j, 0 <= i < nb -> 0 <= j < ch ->
      exists plane : list byte,
        d' !! Z.to_nat j = Some plane /\ load plane i = Some (norm (val i j)).
Proof.
  intros Hnb Hch Hplanes Hsizes.
  set (Inv := fun (i j : Z) (d : list (list byte)) =>
    length d = length d0 /\
    (forall j' (plane : list byte),
       0 <= j' < ch -> d !! Z.to_nat j' = Some plane ->
       width * nb <= Z.of_nat (length plane)) /\
    (forall i' j', 0 <= i' -> 0 <= j' < ch -> i' < i \/ (i' = i /\ j' < j) ->
       exists plane : list byte,
         d !! Z.to_nat j' = Some plane /\ load plane i' = Some (norm (val i' j')))).
  destruct (for_int_invariant (fun i d => Inv i 0 d)
              (fun i d => for_int ch (fun j d => body i j d) d) nb d0 Hnb)
    as (d' & Hrun & Hlen & _ & Hdone).
  - split_and!; [done|done|]. intros i' j' Hi' Hj' Hlt. lia.
  - intros i d Hi Hrow.
    destruct (for_int_invariant (fun j d => Inv i j d)
                (fun j d => body i j d) ch d Hch Hrow)
      as (d1 & Hrun1 & Hlen1 & Hsz1 & Hdone1).
    + intros j d2 Hj (Hlen2 & Hsz2 & Hdone2).
      rewrite body_eq, (read_ok i j Hi Hj). cbn [mbind option_bind].
      unfold plane_at, Memory. destruct (Z.ltb_spec j 0); [lia|].
      destruct (lookup_lt_is_Some_2 d2 (Z.to_nat j)) as [plane Hplane]; [lia|].
      rewrite Hplane. cbn [mbind option_bind].
      destruct (store_ok plane i (val i j)) as (m' & Hst & Hlenm & Hsame & Hother);
        [lia|specialize (Hsz2 j plane Hj Hplane); nia|].
      rewrite Hst. cbn [mbind option_bind].
      eexists. split; [done|]. split_and!.
      * by rewrite length_insert.
      * intros j' plane' Hj' Hlook.
        destruct (decide (j' = j)) as [->|Hne].
        -- rewrite list_lookup_insert_eq in Hlook by lia.
           injection Hlook as <-. rewrite Hlenm. by apply (Hsz2 j).
        -- rewrite list_lookup_insert_ne in Hlook by lia. by apply (Hsz2 j').
      * intros i' j' Hi' Hj' Hbefore.
        destruct (decide (j' = j)) as [->|Hne].
        -- exists m'. rewrite list_lookup_insert_eq by lia. split; [done|].
           destruct (decide (i' = i)) as [->|Hnei]; [done|].
           rewrite Hother by lia.
           destruct (Hdone2 i' j Hi' Hj') as (plane2 & Hplane2 & Hload2); [lia|].
           by simplify_eq.
        -- rewrite list_lookup_insert_ne by lia. apply Hdone2; [done|done|lia].
    + exists d1. split; [done|]. split_and!; [done|done|].
      intros i' j' Hi' Hj' Hbefore. apply Hdone1; [done|done|lia].
  - exists d'. split; [done|]. split; [done|].
    intros i j Hi Hj. apply Hdone; [lia|done|lia].
Qed.

End Deinterleave.

(** ** Teardown and initialization *)

(** [deinitialize] resets every member, whatever the encoder held. *)
Lemma deinitialize_neutral e : deinitialize e = neutral.
Proof.
  unfold deinitialize, neutral.
  by destruct (frame e), (packet e), (context e).
Qed.

(** [deinitialize] may be called any number of times. *)
Lemma deinitialize_idempotent e : deinitialize (deinitialize e) = deinitialize e.
Proof. by rewrite !deinitialize_neutral. Qed.

Section WithBackend.

Variable B : Backend.

Lemma fail_neutral e : fail e = (false, neutral).
Proof. unfold fail. by rewrite deinitialize_neutral. Qed.

(** Whenever [initialize] returns false, nothing of the attempt is left. *)
Lemma initialize_false_neutral e bochanCodec sampleRate bitRate :
  (initialize B e bochanCodec sampleRate bitRate).1 = false ->
  (initialize B e bochanCodec sampleRate bitRate).2 = neutral.
Proof.
  unfold initialize. repeat case_match; rewrite ?fail_neutral; simpl; done.
Qed.

Lemma initialize_true_inv e bochanCodec sampleRate bitRate e' :
  initialize B e bochanCodec sampleRate bitRate = (true, e') ->
  exists c ctx0 pkt fr0,
    getCodecId B bochanCodec <> AV_CODEC_ID_NONE /\
    avcodec_find_encoder B (getCodecId B bochanCodec) = Some c /\
    isSampleRateSupported B c sampleRate = true /\
    isFormatSupported B c (getCodecSampleFormat B bochanCodec) = true /\
    avcodec_alloc_context3 B c = Some ctx0 /\
    av_packet_alloc B = Some pkt /\
    av_frame_alloc B = Some fr0 /\
    let opened :=
      avcodec_open2 B
        (configure B ctx0 (getCodecSampleFormat B bochanCodec) sampleRate bitRate) c in
    let ctx := default_frame_size B opened.2 in
    let fr := describe_frame fr0 ctx in
    0 <= opened.1 /\
    0 <= (av_frame_get_buffer B fr).1 /\
    e' = {| initialized := true;
            bochanCodec := bochanCodec;
            sampleRate := sampleRate;
            bitRate := bitRate;
            sampleFormat := getCodecSampleFormat B bochanCodec;
            codecId := getCodecId B bochanCodec;
            codec := Some c;
            context := Some ctx;
            packet := Some pkt;
            frame := Some (with_data fr (av_frame_get_buffer B fr).2);
            bytesPerSample := av_get_bytes_per_sample B (AVCodecContext.sample_fmt ctx) |}.
Proof.
  unfold initialize, fail.
  cbn [codec context packet frame set_codec set_context set_packet set_frame
       codecId sampleFormat Encoder.bochanCodec Encoder.sampleRate Encoder.bitRate].
  intros H. repeat case_match; try discriminate.
  match goal with
  | Hopen : avcodec_open2 B _ ?c = _, Halloc : avcodec_alloc_context3 B _ = Some ?ctx0,
    Hpkt : av_packet_alloc B = Some ?pkt, Hfr : av_frame_alloc B = Some ?fr0,
    Hbuf : av_frame_get_buffer B _ = _ |- _ =>
      exists c, ctx0, pkt, fr0; rewrite Hopen; cbn [fst snd]; rewrite Hbuf; cbn [fst snd]
  end.
  split_and!; try done.
  - by apply Z.eqb_neq.
  - by apply negb_false_iff.
  - by apply negb_false_iff.
  - lia.
  - lia.
  - congruence.
Qed.

(** A successful [initialize] leaves the encoder ready, its context being
    the opened one with the frame size settled. *)
Lemma initialize_true_ready e bochanCodec sampleRate bitRate e' :
  initialize B e bochanCodec sampleRate bitRate = (true, e') ->
  exists ctx fr, Ready e' ctx fr /\ bochanCodec = getCodec e' /\
                 sampleRate = getSampleRate e' /\ bitRate = getBitRate e'.
Proof.
  intros H. apply initialize_true_inv in H.
  destruct H as (c & ctx0 & pkt & fr0 & _ & _ & _ & _ & _ & _ & _ & _ & _ & ->).
  eexists _, _. split; [|repeat split; reflexivity].
  by split; cbn; eauto.
Qed.

(** Conversely, [initialize] only returns false through one of its error
    exits. *)
Lemma initialize_false_failure e bochanCodec sampleRate bitRate :
  (initialize B e bochanCodec sampleRate bitRate).1 = false ->
  InitFailure B bochanCodec sampleRate bitRate.
Proof.
  unfold initialize, fail.
  cbn [codec context packet frame set_codec set_context set_packet set_frame
       codecId sampleFormat Encoder.bochanCodec Encoder.sampleRate Encoder.bitRate].
  intros H. repeat case_match; try discriminate.
  all: try (apply unknown_codec_id; by apply Z.eqb_eq).
  all: try (by apply missing_encoder).
  all: try (eapply unsupported_sample_rate; [eassumption|]; by apply negb_true_iff).
  all: try (eapply unsupported_sample_format; [eassumption|]; by apply negb_true_iff).
  all: try (by eapply context_allocation_failed).
  all: try (by apply packet_allocation_failed).
  all: try (by apply frame_allocation_failed).
  all: try (eapply open_failed; [eassumption..|];
            match goal with Heq : avcodec_open2 _ _ _ = _ |- _ => rewrite Heq end;
            by apply Z.ltb_lt).
  all: eapply frame_buffer_allocation_failed; [eassumption..|];
       match goal with Heq : avcodec_open2 _ _ _ = _ |- _ => rewrite Heq end;
       cbn [fst snd];
       match goal with Heq : av_frame_get_buffer _ _ = _ |- _ => rewrite Heq end;
       by apply Z.ltb_lt.
Qed.

(** C7.  On every failure path of [initialize] (unknown codec ID, missing
    encoder, unsupported sample rate, unsupported sample format, failed
    allocation of the context, the packet, the frame or its buffer, failed
    open), the call returns false and the encoder is left with every member
    at its neutral default: not initialized, codec [None], sample rate 0,
    bit rate 0, bytes per sample 0, no context, packet or frame. *)
Theorem initialize_failure_resets (e : BochanEncoder)
    (bochanCodec : BochanCodec.t) (sampleRate bitRate : Z) :
  InitFailure B bochanCodec sampleRate bitRate ->
  initialize B e bochanCodec sampleRate bitRate = (false, neutral).
Proof.
  intros Hfail.
  destruct (initialize B e bochanCodec sampleRate bitRate) as [[|] e'] eqn:Hinit.
  - exfalso. apply initialize_true_inv in Hinit.
    destruct Hinit as (c & ctx0 & pkt & fr0 & Hid & Hfind & Hrate & Hfmt & Hctx
                       & Hpkt & Hfr & Hopen & Hbuf & _).
    destruct Hfail; simplify_eq; first [lia|congruence].
  - f_equal.
    change e' with (false, e').2. rewrite <- Hinit.
    apply initialize_false_neutral. by rewrite Hinit.
Qed.

(** ** The getters *)

(** The value [getInputBufferByteSize] computes for an initialized encoder,
    for any frame size and channel count. *)
Lemma getInputBufferByteSize_wrapped e ctx :
  initialized e = true -> context e = Some ctx ->
  getInputBufferByteSize e =
  Some (to_int (AVCodecContext.frame_size ctx * AVCodecContext.channels ctx * 2)).
Proof.
  intros Hinit Hctx. unfold getInputBufferByteSize, sizeof_uint16_t.
  rewrite Hinit, Hctx. f_equal.
  rewrite to_int_to_size_t.
  rewrite <- to_int_to_size_t.
  rewrite to_size_t_mul_r, to_size_t_mul_l.
  rewrite <- Z.mul_assoc, to_size_t_mul_l.
  rewrite to_int_to_size_t. f_equal. lia.
Qed.

(** C4.  [getInputBufferByteSize] returns 0 for an uninitialized encoder.
    For an initialized one it returns exactly frame_size x channels x 2,
    that product being a value of the [int] it returns; with frame size 960
    and 2 channels this is 3840. *)
Theorem getInputBufferByteSize_exact (e : BochanEncoder) :
  (initialized e = false -> getInputBufferByteSize e = Some 0) /\
  (forall ctx,
     initialized e = true -> context e = Some ctx ->
     - 2147483648 <= AVCodecContext.frame_size ctx * AVCodecContext.channels ctx * 2
       <= INT_MAX ->
     getInputBufferByteSize e =
     Some (AVCodecContext.frame_size ctx * AVCodecContext.channels ctx * 2)) /\
  (forall ctx,
     initialized e = true -> context e = Some ctx ->
     AVCodecContext.frame_size ctx = 960 -> AVCodecContext.channels ctx = 2 ->
     getInputBufferByteSize e = Some 3840).
Proof.
  split_and!.
  - intros Hinit. unfold getInputBufferByteSize. by rewrite Hinit.
  - intros ctx Hinit Hctx Hrange.
    rewrite (getInputBufferByteSize_wrapped e ctx Hinit Hctx).
    by rewrite to_int_small.
  - intros ctx Hinit Hctx Hfs Hch.
    rewrite (getInputBufferByteSize_wrapped e ctx Hinit Hctx), Hfs, Hch.
    done.
Qed.

(** C9.  [getSamplesPerFrame] returns 0 for an uninitialized encoder and the
    context's frame size for an initialized one; after a successful
    [initialize] that is the frame size negotiated with the backend: the
    one [avcodec_open2] mandates, or [DEFAULT_FRAMESIZE] when it mandates
    none. *)
Theorem getSamplesPerFrame_negotiated (e : BochanEncoder) :
  (initialized e = false -> getSamplesPerFrame e = Some 0) /\
  (forall ctx,
     initialized e = true -> context e = Some ctx ->
     getSamplesPerFrame e = Some (AVCodecContext.frame_size ctx)) /\
  (forall e0 bochanCodec sampleRate bitRate c ctx0,
     initialize B e0 bochanCodec sampleRate bitRate = (true, e) ->
     avcodec_find_encoder B (getCodecId B bochanCodec) = Some c ->
     avcodec_alloc_context3 B c = Some ctx0 ->
     isInitialized e = true /\
     getSamplesPerFrame e =
     Some (negotiated_frame_size B bochanCodec sampleRate bitRate c ctx0)).
Proof.
  split_and!.
  - intros Hinit. unfold getSamplesPerFrame. by rewrite Hinit.
  - intros ctx Hinit Hctx. unfold getSamplesPerFrame. by rewrite Hinit, Hctx.
  - intros e0 bochanCodec sampleRate bitRate c ctx0 Hsucc Hfind Halloc.
    apply initialize_true_inv in Hsucc.
    destruct Hsucc as (c' & ctx0' & pkt & fr0 & _ & Hfind' & _ & _ & Halloc'
                       & _ & _ & _ & _ & ->).
    simplify_eq. split; [done|].
    unfold getSamplesPerFrame, negotiated_frame_size, default_frame_size.
    cbn [initialized context].
    by destruct (AVCodecContext.frame_size _ =? 0).
Qed.

(** ** [encode]: the checks in front of the conversion *)

Lemma assert_passes_ndebug e samples :
  NDEBUG B = true -> assert_passes B e samples = Some true.
Proof. intros Hn. unfold assert_passes. by rewrite Hn. Qed.

Lemma assert_passes_debug e ctx samples :
  NDEBUG B = false -> initialized e = true -> context e = Some ctx ->
  assert_passes B e samples =
  Some (getUsedSize samples =?
        to_size_t (to_int (AVCodecContext.frame_size ctx * AVCodecContext.channels ctx * 2))).
Proof.
  intros Hn Hinit Hctx. unfold assert_passes.
  by rewrite Hn, (getInputBufferByteSize_wrapped e ctx Hinit Hctx).
Qed.

(** Past the assertion, [encode] is the writability check, the size
    validation, and then conversion and sending. *)
Lemma encode_checked e fr samples :
  frame e = Some fr -> assert_passes B e samples = Some true ->
  encode B e samples =
  if av_frame_make_writable B fr <? 0 then (Returned [], e)
  else if size_rejected fr samples then (Returned [], e)
  else convert_and_send B e fr samples.
Proof. intros Hfr Hassert. unfold encode. by rewrite Hassert, Hfr. Qed.

Lemma expectedSamples_exact fr :
  0 <= AVFrame.nb_samples fr * AVFrame.channels fr <= INT_MAX ->
  expectedSamples fr = AVFrame.nb_samples fr * AVFrame.channels fr.
Proof.
  unfold INT_MAX. intros Hrange. unfold expectedSamples.
  rewrite to_int_small by (unfold INT_MAX; lia).
  apply to_size_t_small. lia.
Qed.

(** The validation compares sample counts, hence rounds the byte count
    down to a multiple of two. *)
Lemma size_rejected_iff fr samples :
  0 <= AVFrame.nb_samples fr * AVFrame.channels fr <= INT_MAX ->
  size_rejected fr samples = true <->
  getUsedSize samples / 2 <> AVFrame.nb_samples fr * AVFrame.channels fr.
Proof.
  intros Hrange. unfold size_rejected, providedSamples, sizeof_uint16_t.
  rewrite (expectedSamples_exact fr Hrange), negb_true_iff.
  apply Z.eqb_neq.
Qed.

Lemma convert_unsupported fr samples :
  supported_layout (AVFrame.format fr) = false ->
  convert B fr samples = Unsupported.
Proof. unfold convert. by destruct (AVFrame.format fr). Qed.

(** C8, as the code has it.  For an initialized encoder whose negotiated
    sample format is none of planar or interleaved 16-bit integer, planar
    or interleaved float: [encode] returns an empty packet sequence, with
    no abort and no undefined access and the encoder as it was, for every
    input whose used size is [getInputBufferByteSize()] (compared in
    [size_t], as line 154 does) and, built with [NDEBUG], for every input;
    built with assertions, an input of another size ends in the failed
    assertion of line 154. *)
Theorem encode_unsupported_format_empty (e : BochanEncoder)
    (ctx : AVCodecContext.t) (fr : AVFrame.t) (samples : ByteBuffer) :
  Ready e ctx fr ->
  supported_layout (AVCodecContext.sample_fmt ctx) = false ->
  exists ibs,
    getInputBufferByteSize e = Some ibs /\
    (NDEBUG B = true \/ getUsedSize samples = to_size_t ibs ->
     encode B e samples = (Returned [], e)) /\
    (NDEBUG B = false -> getUsedSize samples <> to_size_t ibs ->
     encode B e samples = (AssertionFailed, e)).
Proof.
  intros Hready Hfmt.
  pose proof (getInputBufferByteSize_wrapped e ctx
                (ready_initialized _ _ _ Hready) (ready_context _ _ _ Hready))
    as Hibs.
  eexists. split; [exact Hibs|]. split.
  - intros Hpast.
    assert (assert_passes B e samples = Some true) as Hassert.
    { unfold assert_passes. destruct (NDEBUG B); [done|].
      rewrite Hibs. cbn [mbind option_bind]. f_equal. apply Z.eqb_eq.
      by destruct Hpast. }
    rewrite (encode_checked e fr samples (ready_frame _ _ _ Hready) Hassert).
    destruct (av_frame_make_writable B fr <? 0); [done|].
    destruct (size_rejected fr samples); [done|].
    unfold convert_and_send.
    rewrite convert_unsupported by by rewrite (ready_format _ _ _ Hready).
    by rewrite (ready_context _ _ _ Hready).
  - intros Hn Hsize. unfold encode, assert_passes.
    rewrite Hn, Hibs. cbn [mbind option_bind].
    by destruct (Z.eqb_spec (getUsedSize samples)
                   (to_size_t
                      (to_int
                         (AVCodecContext.frame_size ctx
                          * AVCodecContext.channels ctx * 2)))).
Qed.

(** C3, as the code has it.  For an initialized encoder and an input whose
    count of 16-bit samples, [usedSize / 2] rounded down, is not
    frame_size x channels: built with [NDEBUG], [encode] returns an empty
    packet sequence and leaves the encoder exactly as it was, so it stays
    initialized and serves a following call of the right size; built with
    assertions, the assertion of line 154 fails. *)
Theorem encode_wrong_sample_count (e : BochanEncoder)
    (ctx : AVCodecContext.t) (fr : AVFrame.t) (samples : ByteBuffer) :
  Ready e ctx fr ->
  0 <= AVCodecContext.frame_size ctx * AVCodecContext.channels ctx * 2 <= INT_MAX ->
  getUsedSize samples / 2 <>
    AVCodecContext.frame_size ctx * AVCodecContext.channels ctx ->
  (NDEBUG B = true -> encode B e samples = (Returned [], e)) /\
  (NDEBUG B = false -> encode B e samples = (AssertionFailed, e)).
Proof.
  intros Hready Hrange Hcount.
  pose proof (ready_nb_samples _ _ _ Hready) as Hnb.
  pose proof (ready_channels _ _ _ Hready) as Hch.
  split; intros Hn.
  - rewrite (encode_checked e fr samples (ready_frame _ _ _ Hready))
      by by apply assert_passes_ndebug.
    destruct (av_frame_make_writable B fr <? 0); [done|].
    destruct (size_rejected_iff fr samples) as [_ ->]; [|done|].
    + rewrite Hnb, Hch. unfold INT_MAX in *. lia.
    + by rewrite Hnb, Hch.
  - unfold encode.
    rewrite (assert_passes_debug e ctx samples Hn
               (ready_initialized _ _ _ Hready) (ready_context _ _ _ Hready)).
    rewrite to_int_small by (unfold INT_MAX in *; lia).
    rewrite to_size_t_small by (unfold INT_MAX in *; lia).
    destruct (Z.eqb_spec (getUsedSize samples)
                (AVCodecContext.frame_size ctx * AVCodecContext.channels ctx * 2))
      as [Heq|_]; [|done].
    exfalso. apply Hcount. rewrite Heq. by rewrite Z.div_mul.
Qed.


(** ** [encode]: the conversions *)

(** For interleaved 16-bit integers, what is copied into plane 0 is read at
    the address of the buffer object, not at [getPointer()]: the outcome
    does not depend on the audio bytes at all. *)
Lemma convert_s16_ignores_audio fr samples1 samples2 :
  AVFrame.format fr = AV_SAMPLE_FMT_S16 ->
  object_memory samples1 = object_memory samples2 ->
  getUsedSize samples1 = getUsedSize samples2 ->
  convert B fr samples1 = convert B fr samples2.
Proof. intros Hfmt Hobj Hused. unfold convert. by rewrite Hfmt, Hobj, Hused. Qed.

Lemma convert_s16_plane fr samples plane :
  AVFrame.format fr = AV_SAMPLE_FMT_S16 ->
  AVFrame.data fr !! 0%nat = Some plane ->
  0 <= getUsedSize samples ->
  getUsedSize samples <= Z.of_nat (length (object_memory samples)) ->
  getUsedSize samples <= Z.of_nat (length plane) ->
  convert B fr samples =
  Planes (<[0%nat := take (Z.to_nat (getUsedSize samples)) (object_memory samples)
                     ++ drop (Z.to_nat (getUsedSize samples)) plane]>
            (AVFrame.data fr)).
Proof.
  intros Hfmt Hplane H0 Hobj Hdst. unfold convert, plane_at, memcpy.
  rewrite Hfmt. cbv zeta. change (0 <? 0) with false. cbv iota.
  change (Z.to_nat 0) with 0%nat. unfold Memory in *.
  rewrite Hplane. cbn [mbind option_bind].
  destruct (Z.leb_spec 0 (getUsedSize samples)); [|lia].
  destruct (Z.leb_spec (getUsedSize samples) (Z.of_nat (length (object_memory samples))));
    [|lia].
  destruct (Z.leb_spec (getUsedSize samples) (Z.of_nat (length plane))); [|lia].
  done.
Qed.

Lemma load_uint16_Some (m : list byte) k :
  0 <= k -> 2 * (k + 1) <= Z.of_nat (length m) ->
  exists v, load_uint16 m k = Some v /\ 0 <= v < 65536.
Proof.
  intros Hk Hfit. unfold load_uint16, Memory. destruct (Z.ltb_spec k 0); [lia|].
  destruct (lookup_lt_is_Some_2 m (Z.to_nat (2 * k))) as [lo Hlo]; [lia|].
  destruct (lookup_lt_is_Some_2 m (Z.to_nat (2 * k + 1))) as [hi Hhi]; [lia|].
  rewrite Hlo, Hhi. eexists. split; [done|].
  pose proof (byte_val_range lo). pose proof (byte_val_range hi). lia.
Qed.

(** The cells of the planes after the planar 16-bit loops. *)
Lemma s16p_cells fr samples :
  AVFrame.format fr = AV_SAMPLE_FMT_S16P ->
  0 <= AVFrame.nb_samples fr -> 0 <= AVFrame.channels fr ->
  AVFrame.nb_samples fr * AVFrame.channels fr <= INT_MAX ->
  2 * (AVFrame.nb_samples fr * AVFrame.channels fr)
    <= Z.of_nat (length (getPointer samples)) ->
  (Z.to_nat (AVFrame.channels fr) <= length (AVFrame.data fr))%nat ->
  (forall j (plane : list byte),
     0 <= j < AVFrame.channels fr -> AVFrame.data fr !! Z.to_nat j = Some plane ->
     2 * AVFrame.nb_samples fr <= Z.of_nat (length plane)) ->
  exists d',
    convert B fr samples = Planes d' /\
    length d' = length (AVFrame.data fr) /\
    forall i j, 0 <= i < AVFrame.nb_samples fr -> 0 <= j < AVFrame.channels fr ->
      exists (plane : list byte) v,
        d' !! Z.to_nat j = Some plane /\
        load_uint16 (getPointer samples) (i * AVFrame.channels fr + j) = Some v /\
        load_uint16 plane i = Some v.
Proof.
  intros Hfmt Hnb Hch Hmax Hsrc Hplanes Hsizes.
  assert (forall i j, 0 <= i < AVFrame.nb_samples fr -> 0 <= j < AVFrame.channels fr ->
            0 <= i * AVFrame.channels fr + j
            < AVFrame.nb_samples fr * AVFrame.channels fr) as Hidx by (intros; nia).
  destruct (deinterleave_loops 2 load_uint16 store_uint16 (fun v => v mod 65536)
              ltac:(lia) store_uint16_ok
              (AVFrame.nb_samples fr) (AVFrame.channels fr)
              (fun i j => load_uint16 (getPointer samples)
                            (to_int (i * AVFrame.channels fr + j)))
              (fun i j => default 0 (load_uint16 (getPointer samples)
                                       (i * AVFrame.channels fr + j)))
              (s16p_store fr samples)
              ltac:(done)) with (d0 := AVFrame.data fr)
    as (d' & Hrun & Hlen & Hcells); try done.
  - intros i j Hi Hj. specialize (Hidx i j Hi Hj).
    rewrite to_int_small by (unfold INT_MAX in *; lia).
    destruct (load_uint16_Some (getPointer samples) (i * AVFrame.channels fr + j))
      as (v & -> & _); [lia|lia|done].
  - exists d'. split; [|split; [done|]].
    + unfold convert. rewrite Hfmt. unfold per_sample, Memory in *. by rewrite Hrun.
    + intros i j Hi Hj. specialize (Hidx i j Hi Hj).
      destruct (Hcells i j Hi Hj) as (plane & Hplane & Hload).
      destruct (load_uint16_Some (getPointer samples) (i * AVFrame.channels fr + j))
        as (v & Hv & Hrange); [lia|lia|].
      exists plane, v. split_and!; [done|done|].
      rewrite Hload, Hv. cbn [default]. by rewrite Z.mod_small.
Qed.

(** X8.  Planar 16-bit integers: sample [i] of channel [j], read at index
    [i * channels + j] of the input, is cell [i] of plane [j], bit for
    bit.  The frame is one whose planes hold [nb_samples] cells each and
    the input one that holds [nb_samples * channels] samples. *)
Lemma convert_s16p_deinterleaves fr samples :
  AVFrame.format fr = AV_SAMPLE_FMT_S16P ->
  0 <= AVFrame.nb_samples fr -> 0 <= AVFrame.channels fr ->
  AVFrame.nb_samples fr * AVFrame.channels fr <= INT_MAX ->
  2 * (AVFrame.nb_samples fr * AVFrame.channels fr)
    <= Z.of_nat (length (getPointer samples)) ->
  (Z.to_nat (AVFrame.channels fr) <= length (AVFrame.data fr))%nat ->
  (forall j (plane : list byte),
     0 <= j < AVFrame.channels fr -> AVFrame.data fr !! Z.to_nat j = Some plane ->
     2 * AVFrame.nb_samples fr <= Z.of_nat (length plane)) ->
  exists d',
    convert B fr samples = Planes d' /\
    length d' = length (AVFrame.data fr) /\
    forall i j, 0 <= i < AVFrame.nb_samples fr -> 0 <= j < AVFrame.channels fr ->
      exists (plane : list byte) v,
        d' !! Z.to_nat j = Some plane /\
        load_uint16 (getPointer samples) (i * AVFrame.channels fr + j) = Some v /\
        load_uint16 plane i = Some v.
Proof. apply s16p_cells. Qed.

(** The cells of the planes after the planar-float loops. *)
Lemma fltp_cells fr samples :
  AVFrame.format fr = AV_SAMPLE_FMT_FLTP ->
  0 <= AVFrame.nb_samples fr -> 0 <= AVFrame.channels fr ->
  AVFrame.nb_samples fr * AVFrame.channels fr <= INT_MAX ->
  2 * (AVFrame.nb_samples fr * AVFrame.channels fr)
    <= Z.of_nat (length (getPointer samples)) ->
  (Z.to_nat (AVFrame.channels fr) <= length (AVFrame.data fr))%nat ->
  (forall j (plane : list byte),
     0 <= j < AVFrame.channels fr -> AVFrame.data fr !! Z.to_nat j = Some plane ->
     4 * AVFrame.nb_samples fr <= Z.of_nat (length plane)) ->
  exists d',
    convert B fr samples = Planes d' /\
    length d' = length (AVFrame.data fr) /\
    forall i j, 0 <= i < AVFrame.nb_samples fr -> 0 <= j < AVFrame.channels fr ->
      exists (plane : list byte) v,
        d' !! Z.to_nat j = Some plane /\
        load_int16 (getPointer samples) (i * AVFrame.channels fr + j) = Some v /\
        - 32768 <= v < 32768 /\
        load_float plane i = Some (wrap_unsigned 32 (int16ToFloat B v)).
Proof.
  intros Hfmt Hnb Hch Hmax Hsrc Hplanes Hsizes.
  assert (forall i j, 0 <= i < AVFrame.nb_samples fr -> 0 <= j < AVFrame.channels fr ->
            0 <= i * AVFrame.channels fr + j
            < AVFrame.nb_samples fr * AVFrame.channels fr) as Hidx by (intros; nia).
  destruct (deinterleave_loops 4 load_float store_float (wrap_unsigned 32)
              ltac:(lia) store_float_ok
              (AVFrame.nb_samples fr) (AVFrame.channels fr)
              (fun i j => int16ToFloat B <$>
                          load_int16 (getPointer samples)
                            (to_int (i * AVFrame.channels fr + j)))
              (fun i j => int16ToFloat B
                            (to_int16
                               (default 0 (load_uint16 (getPointer samples)
                                             (i * AVFrame.channels fr + j)))))
              (fltp_store B fr samples)) with (d0 := AVFrame.data fr)
    as (d' & Hrun & Hlen & Hcells); try done.
  - intros i j d. unfold fltp_store.
    by destruct (load_int16 _ _).
  - intros i j Hi Hj. specialize (Hidx i j Hi Hj).
    rewrite to_int_small by (unfold INT_MAX in *; lia).
    unfold load_int16.
    destruct (load_uint16_Some (getPointer samples) (i * AVFrame.channels fr + j))
      as (v & -> & _); [lia|lia|done].
  - exists d'. split; [|split; [done|]].
    + unfold convert. rewrite Hfmt. unfold per_sample, Memory in *. by rewrite Hrun.
    + intros i j Hi Hj. specialize (Hidx i j Hi Hj).
      destruct (Hcells i j Hi Hj) as (plane & Hplane & Hload).
      destruct (load_uint16_Some (getPointer samples) (i * AVFrame.channels fr + j))
        as (v & Hv & Hrange); [lia|lia|].
      assert (- 32768 <= to_int16 v < 32768) as Hv16.
      { unfold to_int16, wrap_signed. change (2 ^ (16 - 1)) with 32768.
        change (2 ^ 16) with 65536.
        pose proof (Z.mod_pos_bound (v + 32768) 65536 ltac:(lia)). lia. }
      exists plane, (to_int16 v).
      split; [done|]. split; [|split; [done|]].
      * unfold load_int16. by rewrite Hv.
      * rewrite Hload, Hv. done.
Qed.

(** X9.  Planar floats: sample [i] of channel [j], read as an [int16_t] at index
    [i * channels + j] of the input and passed through [int16ToFloat], is
    cell [i] of plane [j]. *)
Lemma convert_fltp_deinterleaves fr samples :
  AVFrame.format fr = AV_SAMPLE_FMT_FLTP ->
  0 <= AVFrame.nb_samples fr -> 0 <= AVFrame.channels fr ->
  AVFrame.nb_samples fr * AVFrame.channels fr <= INT_MAX ->
  2 * (AVFrame.nb_samples fr * AVFrame.channels fr)
    <= Z.of_nat (length (getPointer samples)) ->
  (Z.to_nat (AVFrame.channels fr) <= length (AVFrame.data fr))%nat ->
  (forall j (plane : list byte),
     0 <= j < AVFrame.channels fr -> AVFrame.data fr !! Z.to_nat j = Some plane ->
     4 * AVFrame.nb_samples fr <= Z.of_nat (length plane)) ->
  exists d',
    convert B fr samples = Planes d' /\
    length d' = length (AVFrame.data fr) /\
    forall i j, 0 <= i < AVFrame.nb_samples fr -> 0 <= j < AVFrame.channels fr ->
      exists (plane : list byte) v,
        d' !! Z.to_nat j = Some plane /\
        load_int16 (getPointer samples) (i * AVFrame.channels fr + j) = Some v /\
        - 32768 <= v < 32768 /\
        load_float plane i = Some (wrap_unsigned 32 (int16ToFloat B v)).
Proof. apply fltp_cells. Qed.

(** Whatever [int16ToFloat] is, the planar-float conversion loses nothing
    that [int16ToFloat] keeps: with any function that undoes it on its
    32-bit patterns, the planes give back every input sample exactly. *)
Lemma convert_fltp_invertible fr samples (floatToInt16 : float32 -> Z) :
  (forall v, - 32768 <= v < 32768 ->
             floatToInt16 (wrap_unsigned 32 (int16ToFloat B v)) = v) ->
  AVFrame.format fr = AV_SAMPLE_FMT_FLTP ->
  0 <= AVFrame.nb_samples fr -> 0 <= AVFrame.channels fr ->
  AVFrame.nb_samples fr * AVFrame.channels fr <= INT_MAX ->
  2 * (AVFrame.nb_samples fr * AVFrame.channels fr)
    <= Z.of_nat (length (getPointer samples)) ->
  (Z.to_nat (AVFrame.channels fr) <= length (AVFrame.data fr))%nat ->
  (forall j (plane : list byte),
     0 <= j < AVFrame.channels fr -> AVFrame.data fr !! Z.to_nat j = Some plane ->
     4 * AVFrame.nb_samples fr <= Z.of_nat (length plane)) ->
  exists d',
    convert B fr samples = Planes d' /\
    forall i j, 0 <= i < AVFrame.nb_samples fr -> 0 <= j < AVFrame.channels fr ->
      (plane ← d' !! Z.to_nat j; floatToInt16 <$> load_float plane i) =
      load_int16 (getPointer samples) (i * AVFrame.channels fr + j).
Proof.
  intros Hinv Hfmt Hnb Hch Hmax Hsrc Hplanes Hsizes.
  destruct (fltp_cells fr samples Hfmt Hnb Hch Hmax Hsrc Hplanes Hsizes)
    as (d' & Hconv & _ & Hcells).
  exists d'. split; [done|].
  intros i j Hi Hj.
  destruct (Hcells i j Hi Hj) as (plane & v & Hplane & Hv & Hrange & Hload).
  unfold Memory in *. rewrite Hplane. cbn [mbind option_bind].
  rewrite Hload, Hv. cbn [fmap option_fmap option_map]. by rewrite Hinv.
Qed.

End WithBackend.

End EncoderProperties.

(* ===================================================================== *)
(** * The statements on concrete sessions                                  *)
(* ===================================================================== *)

Module Sessions.
Import Encoder Scenario EncoderProperties PlayerProperties.

Lemma session_ready_s16p :
  Ready (session true AV_SAMPLE_FMT_S16P 2)
        (session_context true AV_SAMPLE_FMT_S16P 2)
        (session_frame true AV_SAMPLE_FMT_S16P 2).
Proof. split; vm_compute; eauto. Qed.

Lemma session_ready_s32 :
  Ready (session false AV_SAMPLE_FMT_S32 2)
        (session_context false AV_SAMPLE_FMT_S32 2)
        (session_frame false AV_SAMPLE_FMT_S32 2).
Proof. split; vm_compute; eauto. Qed.

(** Two chunks queued, then read back in two calls of other sizes. *)
Lemma queue_then_fill_reproduces_witness :
  (Player.queueAll (Player.initialize 4 16) [chunk1; chunk2]).1 = [3; 2]%nat /\
  concat (Player.fillAll compact_past_half
            (Player.queueAll (Player.initialize 4 16) [chunk1; chunk2]).2
            [2; 3]%nat).1
  = [x01; x02; x03; x04; x05].
Proof.
  apply (queue_then_fill_reproduces compact_past_half (Player.initialize 4 16)
           [chunk1; chunk2] [2; 3]%nat).
  - apply initialize_wf.
  - reflexivity.
  - reflexivity.
  - simpl. lia.
  - reflexivity.
Defined.

(** Three bytes queued, five requested; then two more bytes queued and
    three requested. *)
Lemma fillData_underrun_zero_fills_witness :
  let p := (Player.queueData (Player.initialize 4 16) chunk1).2 in
  let p1 := (Player.fillData compact_past_half p 5).2 in
  (Player.fillData compact_past_half p 5).1 = [x01; x02; x03; x00; x00] /\
  (Player.queueData p1 chunk2).1 = 2%nat /\
  (Player.fillData compact_past_half (Player.queueData p1 chunk2).2 3).1
  = [x04; x05; x00].
Proof.
  intros p p1.
  pose proof (fillData_underrun_zero_fills compact_past_half p 5
                ltac:(split; simpl; lia) eq_refl ltac:(simpl; lia))
    as (Hstream & _ & Hnext).
  split; [exact Hstream|].
  destruct (Hnext chunk2 ltac:(simpl; lia)) as [Hcount Hserved].
  split; [exact Hcount|exact (Hserved 3%nat)].
Defined.

(** [initialize] with [BochanCodec::None] fails on the codec ID, also on an
    encoder that had been initialized before. *)
Lemma initialize_failure_resets_witness :
  initialize (backend true AV_SAMPLE_FMT_S16P 2) (session true AV_SAMPLE_FMT_S16P 2)
    BochanCodec.None 48000 64000
  = (false, neutral).
Proof.
  apply (initialize_failure_resets (backend true AV_SAMPLE_FMT_S16P 2)).
  apply unknown_codec_id. reflexivity.
Defined.

(** Frame size 960 and 2 channels: 3840 bytes per [encode] call. *)
Lemma getInputBufferByteSize_exact_witness :
  getInputBufferByteSize (session true AV_SAMPLE_FMT_S16 960) = Some 3840.
Proof.
  apply (proj2 (proj2 (getInputBufferByteSize_exact (session true AV_SAMPLE_FMT_S16 960)))
           (session_context true AV_SAMPLE_FMT_S16 960));
    reflexivity.
Defined.

(** The backend mandates 960 samples per frame; with none mandated the
    default of 1024 applies. *)
Lemma getSamplesPerFrame_negotiated_witness :
  getSamplesPerFrame (session true AV_SAMPLE_FMT_S16 960) = Some 960 /\
  getSamplesPerFrame (session true AV_SAMPLE_FMT_S16 0) = Some 1024.
Proof.
  split.
  - apply (proj2 (proj2 (getSamplesPerFrame_negotiated
                           (backend true AV_SAMPLE_FMT_S16 960)
                           (session true AV_SAMPLE_FMT_S16 960)))
             neutral (BochanCodec.Tag 1) 48000 64000 1 blank_context);
      reflexivity.
  - apply (proj2 (proj2 (getSamplesPerFrame_negotiated
                           (backend true AV_SAMPLE_FMT_S16 0)
                           (session true AV_SAMPLE_FMT_S16 0)))
             neutral (BochanCodec.Tag 1) 48000 64000 1 blank_context);
      reflexivity.
Defined.

(** A session on 32-bit integers, built with assertions: eight bytes, the
    size it expects, give an empty result; nine end in the assertion. *)
Lemma encode_unsupported_format_empty_witness :
  encode (backend false AV_SAMPLE_FMT_S32 2) (session false AV_SAMPLE_FMT_S32 2) samples8
  = (Returned [], session false AV_SAMPLE_FMT_S32 2) /\
  encode (backend false AV_SAMPLE_FMT_S32 2) (session false AV_SAMPLE_FMT_S32 2) samples9
  = (AssertionFailed, session false AV_SAMPLE_FMT_S32 2).
Proof.
  split.
  - destruct (encode_unsupported_format_empty (backend false AV_SAMPLE_FMT_S32 2)
                (session false AV_SAMPLE_FMT_S32 2)
                (session_context false AV_SAMPLE_FMT_S32 2)
                (session_frame false AV_SAMPLE_FMT_S32 2) samples8
                session_ready_s32 eq_refl)
      as (ibs & Hibs & Hempty & _).
    assert (ibs = 8) as -> by (vm_compute in Hibs; congruence).
    apply Hempty. right. reflexivity.
  - destruct (encode_unsupported_format_empty (backend false AV_SAMPLE_FMT_S32 2)
                (session false AV_SAMPLE_FMT_S32 2)
                (session_context false AV_SAMPLE_FMT_S32 2)
                (session_frame false AV_SAMPLE_FMT_S32 2) samples9
                session_ready_s32 eq_refl)
      as (ibs & Hibs & _ & Haborts).
    assert (ibs = 8) as -> by (vm_compute in Hibs; congruence).
    apply Haborts; [reflexivity|vm_compute; discriminate].
Defined.

(** C8 as stated fails.  The session is initialized on 32-bit integers,
    which is none of the four layouts, and expects 8 bytes; the buffer has
    9 in use.  Built with assertions, [encode] does not return an empty
    sequence: the call ends in the failed assertion of line 154. *)
Lemma encode_unsupported_format_aborts :
  isInitialized (session false AV_SAMPLE_FMT_S32 2) = true /\
  AVCodecContext.sample_fmt (session_context false AV_SAMPLE_FMT_S32 2)
    = AV_SAMPLE_FMT_S32 /\
  supported_layout AV_SAMPLE_FMT_S32 = false /\
  getInputBufferByteSize (session false AV_SAMPLE_FMT_S32 2) = Some 8 /\
  getUsedSize samples9 = 9 /\
  (encode (backend false AV_SAMPLE_FMT_S32 2)
          (session false AV_SAMPLE_FMT_S32 2) samples9).1
  = AssertionFailed /\
  (encode (backend false AV_SAMPLE_FMT_S32 2)
          (session false AV_SAMPLE_FMT_S32 2) samples9).1
  <> Returned [].
Proof.
  split_and!; try (vm_compute; reflexivity); vm_compute; discriminate.
Qed.

(** Four bytes where eight are due: refused, the session unchanged. *)
Lemma encode_wrong_sample_count_witness :
  encode (backend true AV_SAMPLE_FMT_S16P 2) (session true AV_SAMPLE_FMT_S16P 2) samples4
  = (Returned [], session true AV_SAMPLE_FMT_S16P 2).
Proof.
  apply (proj1 (encode_wrong_sample_count (backend true AV_SAMPLE_FMT_S16P 2)
                  (session true AV_SAMPLE_FMT_S16P 2)
                  (session_context true AV_SAMPLE_FMT_S16P 2)
                  (session_frame true AV_SAMPLE_FMT_S16P 2) samples4
                  session_ready_s16p
                  ltac:(vm_compute; split; discriminate)
                  ltac:(vm_compute; discriminate))).
  reflexivity.
Defined.

(** C3 as stated fails.  The session expects 8 bytes; the buffer has 9 in
    use.  Built with [NDEBUG], [encode] does not return an empty sequence:
    it converts the input and returns the packet the backend emits.  Built
    with assertions, the call ends in the failed assertion instead. *)
Lemma encode_wrong_size_not_refused :
  isInitialized (session true AV_SAMPLE_FMT_S16P 2) = true /\
  getInputBufferByteSize (session true AV_SAMPLE_FMT_S16P 2) = Some 8 /\
  getUsedSize samples9 <> 8 /\
  (encode (backend true AV_SAMPLE_FMT_S16P 2)
          (session true AV_SAMPLE_FMT_S16P 2) samples9).1
  = Returned [mkByteBuffer (replicate 24 x00) [x01; x02; x05; x06] 0] /\
  (encode (backend true AV_SAMPLE_FMT_S16P 2)
          (session true AV_SAMPLE_FMT_S16P 2) samples9).1
  <> Returned [] /\
  (encode (backend false AV_SAMPLE_FMT_S16P 2)
          (session false AV_SAMPLE_FMT_S16P 2) samples9).1
  = AssertionFailed.
Proof.
  split_and!; try (vm_compute; reflexivity); vm_compute; discriminate.
Qed.


(** C5 fails on the code.  The session takes interleaved 16-bit integers
    and the input holds the eight audio bytes 01..08.  After [encode],
    plane 0 of the frame that was sent holds the first eight bytes found at
    the address of the buffer object, a0..a7, and not the audio. *)
Theorem encode_s16_copies_buffer_object :
  let e' := (encode (backend true AV_SAMPLE_FMT_S16 2)
                    (session true AV_SAMPLE_FMT_S16 2) samples8).2 in
  AVFrame.data <$> frame e' = Some [take 8 (object_memory samples8)] /\
  AVFrame.data <$> frame e' <> Some [take 8 (getPointer samples8)] /\
  (encode (backend true AV_SAMPLE_FMT_S16 2)
          (session true AV_SAMPLE_FMT_S16 2) samples8).1
  = Returned [mkByteBuffer (replicate 24 x00) [xa0; xa1; xa2; xa3] 0].
Proof.
  split_and!; try (vm_compute; reflexivity); vm_compute; discriminate.
Qed.

End Sessions.

(* ===================================================================== *)
(** * Further behaviour of the encoder                                     *)
(* ===================================================================== *)

Module EncoderBehaviour.
Import Encoder Extradata EncoderProperties.

Section WithBackend.

Variable B : Backend.

(** ** [initialize] *)

(** A failure and a success of the same [initialize] call exclude each
    other. *)
Lemma failure_excludes_success e bochanCodec sampleRate bitRate e' :
  InitFailure B bochanCodec sampleRate bitRate ->
  initialize B e bochanCodec sampleRate bitRate = (true, e') -> False.
Proof.
  intros Hfail Hinit. apply initialize_true_inv in Hinit.
  destruct Hinit as (c & ctx0 & pkt & fr0 & Hid & Hfind & Hrate & Hfmt & Hctx
                     & Hpkt & Hfr & Hopen & Hbuf & _).
  destruct Hfail; simplify_eq; first [lia|congruence].
Qed.

(** X1.  The outcome of [initialize] does not depend on what the encoder
    held before: initializing again over a running session, over a failed
    one or over a fresh encoder gives the same result and the same
    encoder. *)
Theorem initialize_ignores_previous_session (e1 e2 : BochanEncoder)
    (bochanCodec : BochanCodec.t) (sampleRate bitRate : Z) :
  initialize B e1 bochanCodec sampleRate bitRate =
  initialize B e2 bochanCodec sampleRate bitRate.
Proof.
  destruct (initialize B e1 bochanCodec sampleRate bitRate) as [[|] e1'] eqn:H1;
    destruct (initialize B e2 bochanCodec sampleRate bitRate) as [[|] e2'] eqn:H2.
  - apply initialize_true_inv in H1, H2.
    destruct H1 as (c1 & ctx1 & pkt1 & fr1 & _ & Hfind1 & _ & _ & Hctx1
                    & Hpkt1 & Hfr1 & _ & _ & ->).
    destruct H2 as (c2 & ctx2 & pkt2 & fr2 & _ & Hfind2 & _ & _ & Hctx2
                    & Hpkt2 & Hfr2 & _ & _ & ->).
    by simplify_eq.
  - exfalso. eapply failure_excludes_success; [|exact H1].
    apply (initialize_false_failure B e2). by rewrite H2.
  - exfalso. eapply failure_excludes_success; [|exact H2].
    apply (initialize_false_failure B e1). by rewrite H1.
  - pose proof (initialize_false_neutral B e1 bochanCodec sampleRate bitRate) as Hn1.
    pose proof (initialize_false_neutral B e2 bochanCodec sampleRate bitRate) as Hn2.
    rewrite H1 in Hn1. rewrite H2 in Hn2. cbn [fst snd] in Hn1, Hn2.
    by rewrite Hn1, Hn2.
Qed.

(** X2.  [initialize] returns true exactly when none of its nine error
    exits is taken: the codec has an ID and an encoder, the encoder
    supports the sample rate and the sample format, and the context, the
    packet, the frame and the frame buffer are allocated and the codec
    opens. *)
Theorem initialize_succeeds_iff (e : BochanEncoder)
    (bochanCodec : BochanCodec.t) (sampleRate bitRate : Z) :
  (initialize B e bochanCodec sampleRate bitRate).1 = true <->
  ~ InitFailure B bochanCodec sampleRate bitRate.
Proof.
  split.
  - intros Htrue Hfail.
    destruct (initialize B e bochanCodec sampleRate bitRate) as [ok e'] eqn:Hinit.
    cbn [fst] in Htrue. subst ok.
    by eapply failure_excludes_success.
  - intros Hnone.
    destruct (initialize B e bochanCodec sampleRate bitRate).1 eqn:Hres; [done|].
    exfalso. apply Hnone. by apply (initialize_false_failure B e).
Qed.

(** X3.  After a successful [initialize] the encoder reports itself
    initialized, with the codec, sample rate and bit rate it was given; it
    owns a context, a packet and a frame, and the frame has the frame size,
    sample format, channel layout and channel count of the context;
    [bytesPerSample] is that of the context's sample format; and the frame
    size is not 0 unless the default frame size is. *)
Theorem initialize_success_session (e e' : BochanEncoder)
    (bochanCodec : BochanCodec.t) (sampleRate bitRate : Z) :
  initialize B e bochanCodec sampleRate bitRate = (true, e') ->
  exists ctx fr,
    Ready e' ctx fr /\
    isInitialized e' = true /\
    getCodec e' = bochanCodec /\
    getSampleRate e' = sampleRate /\
    getBitRate e' = bitRate /\
    sampleFormat e' = getCodecSampleFormat B bochanCodec /\
    codecId e' = getCodecId B bochanCodec /\
    codecId e' <> AV_CODEC_ID_NONE /\
    AVFrame.channel_layout fr = AVCodecContext.channel_layout ctx /\
    bytesPerSample e' = av_get_bytes_per_sample B (AVCodecContext.sample_fmt ctx) /\
    (DEFAULT_FRAMESIZE B <> 0 -> getSamplesPerFrame e' <> Some 0).
Proof.
  intros H. apply initialize_true_inv in H.
  destruct H as (c & ctx0 & pkt & fr0 & Hid & _ & _ & _ & _ & _ & _ & _ & _ & ->).
  eexists _, _. split; [by split; cbn; eauto|].
  split_and!; try reflexivity; [done|].
  intros Hdefault. unfold getSamplesPerFrame, default_frame_size.
  cbn [initialized context].
  destruct (Z.eqb_spec (AVCodecContext.frame_size
              (avcodec_open2 B
                 (configure B ctx0 (getCodecSampleFormat B bochanCodec)
                    sampleRate bitRate) c).2) 0) as [Hzero|Hnonzero];
    cbn [AVCodecContext.frame_size]; congruence.
Qed.

(** ** [deinitialize] and the queries *)

(** After [deinitialize], whatever the encoder held, a second
    [deinitialize] changes nothing and every query gives the neutral
    answer: not initialized, codec [None], rates 0, 0 samples per frame,
    0 input bytes, no extradata and a null extradata buffer. *)
Lemma deinitialize_then_queries (M : Members) (e : BochanEncoder) :
  deinitialize (deinitialize e) = deinitialize e /\
  isInitialized (deinitialize e) = false /\
  getCodec (deinitialize e) = BochanCodec.None /\
  getSampleRate (deinitialize e) = 0 /\
  getBitRate (deinitialize e) = 0 /\
  getSamplesPerFrame (deinitialize e) = Some 0 /\
  getInputBufferByteSize (deinitialize e) = Some 0 /\
  hasExtradata M (deinitialize e) = Some false /\
  getExtradata B M (deinitialize e) = Some None.
Proof. rewrite !deinitialize_neutral. by split_and!. Qed.

(** X7.  For an initialized encoder [getInputBufferByteSize] always returns
    an [int] that agrees with frame_size x channels x 2 modulo 2^32: beyond
    [INT_MAX] the product wraps around instead of being reported. *)
Theorem getInputBufferByteSize_wraps (e : BochanEncoder) (ctx : AVCodecContext.t) :
  initialized e = true -> context e = Some ctx ->
  exists n,
    getInputBufferByteSize e = Some n /\
    - 2147483648 <= n <= INT_MAX /\
    (AVCodecContext.frame_size ctx * AVCodecContext.channels ctx * 2 - n) mod 2 ^ 32 = 0.
Proof.
  intros Hinit Hctx.
  rewrite (getInputBufferByteSize_wrapped e ctx Hinit Hctx).
  eexists. split; [done|].
  set (x := AVCodecContext.frame_size ctx * AVCodecContext.channels ctx * 2).
  unfold to_int, wrap_signed, INT_MAX.
  change (2 ^ (32 - 1)) with 2147483648. change (2 ^ 32) with 4294967296.
  pose proof (Z.mod_pos_bound (x + 2147483648) 4294967296 ltac:(lia)) as Hbound.
  split; [lia|].
  pose proof (Z.div_mod (x + 2147483648) 4294967296 ltac:(lia)) as Hdm.
  replace (x - ((x + 2147483648) mod 4294967296 - 2147483648))
    with (((x + 2147483648) / 4294967296) * 4294967296) by lia.
  apply Z_mod_mult.
Qed.

(** ** [encode] *)

(** X4.  [encode] does not check that the encoder is initialized.  On a
    deinitialized encoder it never returns a vector: built with
    assertions it fails the assertion of line 154 for every non-empty
    input, and otherwise it hands the null frame to
    [av_frame_make_writable]. *)
Theorem encode_uninitialized_never_returns (e : BochanEncoder) (samples : ByteBuffer) :
  encode B (deinitialize e) samples =
  (if NDEBUG B || (getUsedSize samples =? 0) then Undefined else AssertionFailed,
   deinitialize e).
Proof.
  rewrite deinitialize_neutral. unfold encode, assert_passes.
  destruct (NDEBUG B); [done|].
  cbn [orb getInputBufferByteSize initialized neutral mbind option_bind].
  change (to_size_t (to_int (to_size_t 0))) with 0.
  by destruct (getUsedSize samples =? 0).
Qed.

(** X5.  Whatever its input and however it ends, [encode] leaves the
    session as it was: the encoder stays initialized with the same codec,
    rates, sample format and bytes per sample, it still owns a context and
    a packet, and its frame keeps its frame size, format, channel layout
    and channel count.  Only the frame data, the backend's context and the
    packet contents can differ afterwards. *)
Theorem encode_keeps_session (e : BochanEncoder) (samples : ByteBuffer) :
  let e' := (encode B e samples).2 in
  initialized e' = initialized e /\
  bochanCodec e' = bochanCodec e /\
  sampleRate e' = sampleRate e /\
  bitRate e' = bitRate e /\
  sampleFormat e' = sampleFormat e /\
  codecId e' = codecId e /\
  codec e' = codec e /\
  bytesPerSample e' = bytesPerSample e /\
  (is_Some (context e') <-> is_Some (context e)) /\
  (is_Some (packet e') <-> is_Some (packet e)) /\
  AVFrame.nb_samples <$> frame e' = AVFrame.nb_samples <$> frame e /\
  AVFrame.format <$> frame e' = AVFrame.format <$> frame e /\
  AVFrame.channel_layout <$> frame e' = AVFrame.channel_layout <$> frame e /\
  AVFrame.channels <$> frame e' = AVFrame.channels <$> frame e.
Proof.
  intros e'. subst e'. unfold encode, convert_and_send.
  destruct (frame e) as [fr|] eqn:Hfr, (context e) as [ctx|] eqn:Hctx,
           (packet e) as [pkt|] eqn:Hpkt;
    repeat case_match; subst;
    cbn [fst snd initialized bochanCodec sampleRate bitRate sampleFormat codecId
         codec bytesPerSample context packet frame set_frame set_context set_packet
         with_data fmap option_fmap option_map
         AVFrame.nb_samples AVFrame.format AVFrame.channel_layout AVFrame.channels]
      in *;
    rewrite ?Hfr, ?Hctx, ?Hpkt; simplify_eq;
    split_and!;
    first [done | by split; eauto | by split; intros [? ?]].
Qed.

(** The two size checks on an input of exactly the expected size. *)
Lemma exact_size_checks e ctx fr samples :
  Ready e ctx fr ->
  0 <= AVCodecContext.frame_size ctx * AVCodecContext.channels ctx * 2 <= INT_MAX ->
  getInputBufferByteSize e = Some (getUsedSize samples) ->
  getUsedSize samples =
    AVCodecContext.frame_size ctx * AVCodecContext.channels ctx * 2 /\
  assert_passes B e samples = Some true /\
  size_rejected fr samples = false.
Proof.
  intros Hready Hrange Hsize.
  pose proof (ready_nb_samples _ _ _ Hready) as Hnb.
  pose proof (ready_channels _ _ _ Hready) as Hch.
  rewrite (getInputBufferByteSize_wrapped e ctx
             (ready_initialized _ _ _ Hready) (ready_context _ _ _ Hready)) in Hsize.
  rewrite to_int_small in Hsize by (unfold INT_MAX in *; lia).
  injection Hsize as Hsize.
  split_and!; [done| |].
  - unfold assert_passes. destruct (NDEBUG B); [done|].
    rewrite (getInputBufferByteSize_wrapped e ctx
               (ready_initialized _ _ _ Hready) (ready_context _ _ _ Hready)).
    cbn [mbind option_bind].
    rewrite to_int_small by (unfold INT_MAX in *; lia).
    rewrite to_size_t_small by (unfold INT_MAX in *; lia).
    f_equal. apply Z.eqb_eq. lia.
  - apply not_true_is_false. rewrite size_rejected_iff.
    + intros Hne. apply Hne. rewrite Hnb, Hch, <- Hsize. by rewrite Z.div_mul.
    + rewrite Hnb, Hch. unfold INT_MAX in *. lia.
Qed.

(** X6.  An input of exactly [getInputBufferByteSize()] bytes is never
    refused for its size: in either build the assertion holds and the
    validation lets it through, so [encode] converts it, unless the frame
    cannot be made writable, in which case it returns an empty sequence
    and the encoder is as it was. *)
Theorem encode_exact_size_accepted (e : BochanEncoder)
    (ctx : AVCodecContext.t) (fr : AVFrame.t) (samples : ByteBuffer) :
  Ready e ctx fr ->
  0 <= AVCodecContext.frame_size ctx * AVCodecContext.channels ctx * 2 <= INT_MAX ->
  getInputBufferByteSize e = Some (getUsedSize samples) ->
  assert_passes B e samples = Some true /\
  size_rejected fr samples = false /\
  encode B e samples =
    if av_frame_make_writable B fr <? 0 then (Returned [], e)
    else convert_and_send B e fr samples.
Proof.
  intros Hready Hrange Hsize.
  destruct (exact_size_checks e ctx fr samples Hready Hrange Hsize)
    as (_ & Hassert & Haccepted).
  split_and!; [done|done|].
  rewrite (encode_checked B e fr samples (ready_frame _ _ _ Hready) Hassert).
  by rewrite Haccepted.
Qed.

(** ** The receive loop of [encode] *)

(** The pool buffer a packet is copied into, when it is large enough. *)
Lemma packet_buffer_filled (bytes : list byte) :
  Z.of_nat (length bytes)
    <= Z.of_nat (length (getPointer (getBuffer B (Z.of_nat (length bytes))))) ->
  exists buf,
    packet_buffer B bytes = Some buf /\
    getPointer buf =
      bytes ++ drop (length bytes) (getPointer (getBuffer B (Z.of_nat (length bytes)))) /\
    getUsedSize buf = getUsedSize (getBuffer B (Z.of_nat (length bytes))).
Proof.
  intros Hfits. unfold packet_buffer, memcpy.
  destruct (Z.leb_spec 0 (Z.of_nat (length bytes))); [|lia].
  destruct (Z.leb_spec (Z.of_nat (length bytes)) (Z.of_nat (length bytes))); [|lia].
  destruct (Z.leb_spec (Z.of_nat (length bytes))
              (Z.of_nat (length (getPointer (getBuffer B (Z.of_nat (length bytes)))))));
    [|lia].
  cbn [andb mbind option_bind]. eexists. split; [done|]. cbn [getPointer getUsedSize].
  by rewrite Nat2Z.id, firstn_all.
Qed.

Lemma receive_packets_prefix (good tail : list Received) : forall acc,
  (forall n, 0 <= n -> n <= Z.of_nat (length (getPointer (getBuffer B n)))) ->
  Forall (fun r : Received =>
            0 <= r.1 /\ r.1 <> AVERROR_EAGAIN B /\ r.1 <> AVERROR_EOF B) good ->
  exists bufs,
    receive_packets B (good ++ tail) acc = receive_packets B tail (acc ++ bufs) /\
    Forall2 (fun (r : Received) buf =>
               getPointer buf =
                 r.2 ++ drop (length r.2)
                          (getPointer (getBuffer B (Z.of_nat (length r.2)))) /\
               getUsedSize buf = getUsedSize (getBuffer B (Z.of_nat (length r.2))))
            good bufs.
Proof.
  intros acc Hpool Hgood. revert acc.
  induction Hgood as [|[ret bytes] good (Hret & Hagain & Heof) _ IH]; intros acc.
  - exists []. by rewrite app_nil_r.
  - cbn [fst snd] in *.
    destruct (packet_buffer_filled bytes) as (buf & Hbuf & Hptr & Hused);
      [apply Hpool; lia|].
    destruct (IH (acc ++ [buf])) as (bufs & Hrun & Hall).
    exists (buf :: bufs). split.
    + cbn [app receive_packets].
      destruct (Z.eqb_spec ret (AVERROR_EAGAIN B)); [done|].
      destruct (Z.eqb_spec ret (AVERROR_EOF B)); [done|].
      destruct (Z.ltb_spec ret 0); [lia|].
      cbn [orb]. rewrite Hbuf, Hrun. by rewrite <- app_assoc.
    + by constructor.
Qed.

(** The loop up to its stop: one buffer per packet, in order; what is
    pending behind the stop is left. *)
Lemma receive_packets_in_order (good tail : list Received) :
  (forall n, 0 <= n -> n <= Z.of_nat (length (getPointer (getBuffer B n)))) ->
  Forall (fun r : Received =>
            0 <= r.1 /\ r.1 <> AVERROR_EAGAIN B /\ r.1 <> AVERROR_EOF B) good ->
  match tail with
  | [] => True
  | r :: _ => r.1 = AVERROR_EAGAIN B \/ r.1 = AVERROR_EOF B
  end ->
  exists bufs pkt,
    receive_packets B (good ++ tail) [] = (Returned bufs, pkt, drop 1 tail) /\
    Forall2 (fun (r : Received) buf =>
               getPointer buf =
                 r.2 ++ drop (length r.2)
                          (getPointer (getBuffer B (Z.of_nat (length r.2)))) /\
               getUsedSize buf = getUsedSize (getBuffer B (Z.of_nat (length r.2))))
            good bufs.
Proof.
  intros Hpool Hgood Hstop.
  destruct (receive_packets_prefix good tail [] Hpool Hgood) as (bufs & Hrun & Hall).
  exists bufs. rewrite Hrun. cbn [app].
  destruct tail as [|[ret bytes] rest]; cbn [receive_packets drop fst] in *.
  - by eexists.
  - exists (AVPacket.mk bytes). split; [|done].
    destruct Hstop as [->| ->]; rewrite Z.eqb_refl; [done|].
    by rewrite orb_true_r.
Qed.

(** The loop on a failed receive call: nothing is returned. *)
Lemma receive_packets_error_drops (good rest : list Received)
    (err : Z) (bytes : list byte) (acc : list ByteBuffer) :
  (forall n, 0 <= n -> n <= Z.of_nat (length (getPointer (getBuffer B n)))) ->
  Forall (fun r : Received =>
            0 <= r.1 /\ r.1 <> AVERROR_EAGAIN B /\ r.1 <> AVERROR_EOF B) good ->
  err < 0 -> err <> AVERROR_EAGAIN B -> err <> AVERROR_EOF B ->
  receive_packets B (good ++ (err, bytes) :: rest) acc
  = (Returned [], AVPacket.mk bytes, rest).
Proof.
  intros Hpool Hgood Hneg Hagain Heof.
  destruct (receive_packets_prefix good ((err, bytes) :: rest) acc Hpool Hgood)
    as (bufs & -> & _).
  cbn [receive_packets].
  destruct (Z.eqb_spec err (AVERROR_EAGAIN B)); [done|].
  destruct (Z.eqb_spec err (AVERROR_EOF B)); [done|].
  by destruct (Z.ltb_spec err 0); [|lia].
Qed.

(** [encode] from the moment the backend has accepted the frame. *)
Lemma encode_after_send e ctx fr samples d ret ctx' :
  Ready e ctx fr ->
  assert_passes B e samples = Some true ->
  0 <= av_frame_make_writable B fr ->
  size_rejected fr samples = false ->
  convert B fr samples = Planes d ->
  avcodec_send_frame B ctx (with_data fr d) = (ret, ctx') ->
  0 <= ret ->
  encode B e samples =
  let '(out, pkt, rest) := receive_packets B (AVCodecContext.pending ctx') [] in
  (out,
   set_packet
     (set_context (set_frame e (Some (with_data fr d)))
        (Some (with_pending ctx' rest)))
     (Some pkt)).
Proof.
  intros Hready Hassert Hw Hsize Hconv Hsend Hret.
  rewrite (encode_checked B e fr samples (ready_frame _ _ _ Hready) Hassert).
  destruct (Z.ltb_spec (av_frame_make_writable B fr) 0); [lia|].
  rewrite Hsize. unfold convert_and_send. rewrite Hconv.
  cbn [context set_frame]. rewrite (ready_context _ _ _ Hready), Hsend.
  destruct (Z.ltb_spec ret 0); [lia|].
  cbn [packet set_context set_frame].
  destruct (ready_packet _ _ _ Hready) as [pkt0 Hpkt0]. rewrite Hpkt0.
  by destruct (receive_packets B (AVCodecContext.pending ctx') []) as [[out pkt] rest].
Qed.

(** X10.  Once the input is converted and the backend has accepted the
    frame, and with a pool that hands out buffers at least as large as
    asked for, [encode] returns one buffer per packet, in the order the
    backend emits them, up to the first [AVERROR(EAGAIN)] or [AVERROR_EOF]
    (or until nothing is pending).  Each buffer starts with the bytes of
    its packet, keeps the rest of the pool buffer, and has the used size
    the pool gave it, which [encode] does not set.  The frame holds the
    converted planes, and what the backend has pending behind the stop is
    left for the next call. *)
Theorem encode_returns_packets_in_order (e : BochanEncoder)
    (ctx ctx' : AVCodecContext.t) (fr : AVFrame.t) (samples : ByteBuffer)
    (d : list Memory) (ret : Z) (good tail : list Received) :
  Ready e ctx fr ->
  assert_passes B e samples = Some true ->
  0 <= av_frame_make_writable B fr ->
  size_rejected fr samples = false ->
  convert B fr samples = Planes d ->
  avcodec_send_frame B ctx (with_data fr d) = (ret, ctx') ->
  0 <= ret ->
  AVCodecContext.pending ctx' = good ++ tail ->
  (forall n, 0 <= n -> n <= Z.of_nat (length (getPointer (getBuffer B n)))) ->
  Forall (fun r : Received =>
            0 <= r.1 /\ r.1 <> AVERROR_EAGAIN B /\ r.1 <> AVERROR_EOF B) good ->
  match tail with
  | [] => True
  | r :: _ => r.1 = AVERROR_EAGAIN B \/ r.1 = AVERROR_EOF B
  end ->
  exists bufs pkt,
    encode B e samples =
      (Returned bufs,
       set_packet
         (set_context (set_frame e (Some (with_data fr d)))
            (Some (with_pending ctx' (drop 1 tail))))
         (Some pkt)) /\
    Forall2 (fun (r : Received) buf =>
               getPointer buf =
                 r.2 ++ drop (length r.2)
                          (getPointer (getBuffer B (Z.of_nat (length r.2)))) /\
               getUsedSize buf = getUsedSize (getBuffer B (Z.of_nat (length r.2))))
            good bufs.
Proof.
  intros Hready Hassert Hw Hsize Hconv Hsend Hret Hpending Hpool Hgood Hstop.
  rewrite (encode_after_send e ctx fr samples d ret ctx'
             Hready Hassert Hw Hsize Hconv Hsend Hret), Hpending.
  destruct (receive_packets_in_order good tail Hpool Hgood Hstop)
    as (bufs & pkt & -> & Hall).
  by exists bufs, pkt.
Qed.

(** X11.  When, after the frame was accepted, a receive call fails with a
    negative code other than [AVERROR(EAGAIN)] and [AVERROR_EOF], [encode]
    returns an empty sequence: the packets it had received before the
    failure in the same call are not returned.  The encoder stays as the
    call left it, with the converted planes in the frame. *)
Theorem encode_failed_receive_returns_nothing (e : BochanEncoder)
    (ctx ctx' : AVCodecContext.t) (fr : AVFrame.t) (samples : ByteBuffer)
    (d : list Memory) (ret err : Z) (bytes : list byte)
    (good rest : list Received) :
  Ready e ctx fr ->
  assert_passes B e samples = Some true ->
  0 <= av_frame_make_writable B fr ->
  size_rejected fr samples = false ->
  convert B fr samples = Planes d ->
  avcodec_send_frame B ctx (with_data fr d) = (ret, ctx') ->
  0 <= ret ->
  AVCodecContext.pending ctx' = good ++ (err, bytes) :: rest ->
  (forall n, 0 <= n -> n <= Z.of_nat (length (getPointer (getBuffer B n)))) ->
  Forall (fun r : Received =>
            0 <= r.1 /\ r.1 <> AVERROR_EAGAIN B /\ r.1 <> AVERROR_EOF B) good ->
  err < 0 -> err <> AVERROR_EAGAIN B -> err <> AVERROR_EOF B ->
  encode B e samples =
    (Returned [],
     set_packet
       (set_context (set_frame e (Some (with_data fr d)))
          (Some (with_pending ctx' rest)))
       (Some (AVPacket.mk bytes))).
Proof.
  intros Hready Hassert Hw Hsize Hconv Hsend Hret Hpending Hpool Hgood
         Hneg Hagain Heof.
  rewrite (encode_after_send e ctx fr samples d ret ctx'
             Hready Hassert Hw Hsize Hconv Hsend Hret), Hpending.
  by rewrite (receive_packets_error_drops good rest err bytes [] Hpool Hgood
                Hneg Hagain Heof).
Qed.

(** ** What the planar conversions read *)

Lemma loop_ext {S : Type} (body1 body2 : Z -> S -> option S) n : forall i0 s,
  (forall i s, i0 <= i < i0 + Z.of_nat n -> body1 i s = body2 i s) ->
  loop n i0 body1 s = loop n i0 body2 s.
Proof.
  induction n as [|n IH]; intros i0 s Hext; [done|].
  cbn [loop]. rewrite (Hext i0 s) by lia.
  destruct (body2 i0 s) as [s'|]; [|done].
  apply IH. intros i s0 Hi. apply Hext. lia.
Qed.

Lemma for_int_ext {S : Type} (body1 body2 : Z -> S -> option S) bound s :
  (forall i s, 0 <= i < bound -> body1 i s = body2 i s) ->
  for_int bound body1 s = for_int bound body2 s.
Proof.
  intros Hext. unfold for_int. apply loop_ext. intros i s0 Hi. apply Hext. lia.
Qed.

Lemma load_uint16_prefix (m1 m2 : list byte) (n : nat) k :
  take n m1 = take n m2 -> 0 <= k -> 2 * (k + 1) <= Z.of_nat n ->
  load_uint16 m1 k = load_uint16 m2 k.
Proof.
  intros Hsame Hk Hin. unfold load_uint16, Memory.
  rewrite <- (lookup_take_lt m1 n (Z.to_nat (2 * k))) by lia.
  rewrite <- (lookup_take_lt m1 n (Z.to_nat (2 * k + 1))) by lia.
  rewrite Hsame.
  by rewrite !lookup_take_lt by lia.
Qed.

(** X14.  The two planar conversions read the input through
    [getPointer()] and only its first nb_samples x channels samples: two
    inputs that agree on those bytes are converted to the same planes,
    whatever else the buffers hold and whatever their used sizes. *)
Theorem planar_conversion_reads_valid_prefix (fr : AVFrame.t)
    (samples1 samples2 : ByteBuffer) :
  AVFrame.format fr = AV_SAMPLE_FMT_S16P \/ AVFrame.format fr = AV_SAMPLE_FMT_FLTP ->
  AVFrame.nb_samples fr * AVFrame.channels fr <= INT_MAX ->
  take (Z.to_nat (2 * (AVFrame.nb_samples fr * AVFrame.channels fr)))
       (getPointer samples1)
  = take (Z.to_nat (2 * (AVFrame.nb_samples fr * AVFrame.channels fr)))
         (getPointer samples2) ->
  convert B fr samples1 = convert B fr samples2.
Proof.
  intros Hfmt Hmax Hsame.
  assert (forall i j, 0 <= i < AVFrame.nb_samples fr -> 0 <= j < AVFrame.channels fr ->
            load_uint16 (getPointer samples1) (to_int (i * AVFrame.channels fr + j))
            = load_uint16 (getPointer samples2) (to_int (i * AVFrame.channels fr + j)))
    as Hload.
  { intros i j Hi Hj.
    assert (0 <= i * AVFrame.channels fr + j
            < AVFrame.nb_samples fr * AVFrame.channels fr) as Hidx by nia.
    rewrite to_int_small by (unfold INT_MAX in *; lia).
    eapply load_uint16_prefix; [exact Hsame|lia|lia]. }
  unfold convert, per_sample.
  destruct Hfmt as [-> | ->]; f_equal.
  - apply for_int_ext. intros i d Hi. apply for_int_ext. intros j d' Hj.
    unfold s16p_store. by rewrite Hload.
  - apply for_int_ext. intros i d Hi. apply for_int_ext. intros j d' Hj.
    unfold fltp_store, load_int16. by rewrite Hload.
Qed.

(** ** How [encode] can end *)

Lemma receive_packets_never_asserts (pending : list Received) : forall acc,
  (receive_packets B pending acc).1.1 <> AssertionFailed.
Proof.
  induction pending as [|[ret bytes] rest IH]; intros acc; cbn [receive_packets];
    [done|].
  destruct ((ret =? AVERROR_EAGAIN B) || (ret =? AVERROR_EOF B)); [done|].
  destruct (ret <? 0); [done|].
  destruct (packet_buffer B bytes); [apply IH|done].
Qed.

Lemma receive_packets_returns (pending : list Received) : forall acc,
  (forall n, 0 <= n -> n <= Z.of_nat (length (getPointer (getBuffer B n)))) ->
  exists bufs, (receive_packets B pending acc).1.1 = Returned bufs.
Proof.
  induction pending as [|[ret bytes] rest IH]; intros acc Hpool;
    cbn [receive_packets]; [by eexists|].
  destruct ((ret =? AVERROR_EAGAIN B) || (ret =? AVERROR_EOF B)); [by eexists|].
  destruct (ret <? 0); [by eexists|].
  destruct (packet_buffer_filled bytes) as (buf & -> & _); [apply Hpool; lia|].
  by apply IH.
Qed.

(** X15.  For an initialized encoder, [encode] ends in the failed
    assertion of line 154 exactly when assertions are compiled in and the
    used size differs from frame_size x channels x 2: never with [NDEBUG],
    never for an input of the right size, and always otherwise, also for
    the odd sizes the runtime validation would let through. *)
Theorem encode_assertion_failed_iff (e : BochanEncoder)
    (ctx : AVCodecContext.t) (fr : AVFrame.t) (samples : ByteBuffer) :
  Ready e ctx fr ->
  0 <= AVCodecContext.frame_size ctx * AVCodecContext.channels ctx * 2 <= INT_MAX ->
  (encode B e samples).1 = AssertionFailed <->
  NDEBUG B = false /\
  getUsedSize samples <>
    AVCodecContext.frame_size ctx * AVCodecContext.channels ctx * 2.
Proof.
  intros Hready Hrange.
  assert (assert_passes B e samples = Some true ->
          (encode B e samples).1 <> AssertionFailed) as Hpast.
  { intros Hassert.
    rewrite (encode_checked B e fr samples (ready_frame _ _ _ Hready) Hassert).
    destruct (av_frame_make_writable B fr <? 0); [done|].
    destruct (size_rejected fr samples); [done|].
    unfold convert_and_send.
    destruct (convert B fr samples) as [d| |]; [|by destruct (context e)|done].
    cbn [context set_frame]. destruct (context e) as [c|]; [|done].
    destruct (avcodec_send_frame B c (with_data fr d)) as [ret c'].
    destruct (ret <? 0); [done|].
    cbn [packet set_context set_frame]. destruct (packet e); [|done].
    pose proof (receive_packets_never_asserts (AVCodecContext.pending c') []) as Hrecv.
    by destruct (receive_packets B (AVCodecContext.pending c') []) as [[out pkt] rest]. }
  destruct (NDEBUG B) eqn:Hn.
  - split; [|by intros [? _]].
    intros Hfailed. exfalso. apply Hpast; [|done]. by apply assert_passes_ndebug.
  - pose proof (assert_passes_debug B e ctx samples Hn
                  (ready_initialized _ _ _ Hready) (ready_context _ _ _ Hready))
      as Hassert.
    rewrite to_int_small in Hassert by (unfold INT_MAX in *; lia).
    rewrite to_size_t_small in Hassert by (unfold INT_MAX in *; lia).
    destruct (Z.eqb_spec (getUsedSize samples)
                (AVCodecContext.frame_size ctx * AVCodecContext.channels ctx * 2))
      as [Heq|Hne].
    + split; [|by intros [_ ?]].
      intros Hfailed. exfalso. by apply Hpast.
    + split; [done|]. intros _. unfold encode. by rewrite Hassert.
Qed.

(** X16.  An encoder initialized for planar 16-bit integers or planar
    floats, given an input of exactly the expected size whose bytes are all
    there, with frame planes of one cell per sample and a pool that hands
    out buffers at least as large as asked for, always returns from
    [encode] with a vector: no assertion fails and no access leaves its
    buffer, whatever the backend answers. *)
Theorem encode_planar_always_returns (e : BochanEncoder)
    (ctx : AVCodecContext.t) (fr : AVFrame.t) (samples : ByteBuffer) :
  Ready e ctx fr ->
  AVCodecContext.sample_fmt ctx = AV_SAMPLE_FMT_S16P \/
  AVCodecContext.sample_fmt ctx = AV_SAMPLE_FMT_FLTP ->
  0 <= AVCodecContext.frame_size ctx -> 0 <= AVCodecContext.channels ctx ->
  AVCodecContext.frame_size ctx * AVCodecContext.channels ctx * 2 <= INT_MAX ->
  getInputBufferByteSize e = Some (getUsedSize samples) ->
  getUsedSize samples <= Z.of_nat (length (getPointer samples)) ->
  (Z.to_nat (AVCodecContext.channels ctx) <= length (AVFrame.data fr))%nat ->
  (forall j (plane : list byte),
     0 <= j < AVCodecContext.channels ctx ->
     AVFrame.data fr !! Z.to_nat j = Some plane ->
     (match AVCodecContext.sample_fmt ctx with AV_SAMPLE_FMT_S16P => 2 | _ => 4 end)
       * AVCodecContext.frame_size ctx <= Z.of_nat (length plane)) ->
  (forall n, 0 <= n -> n <= Z.of_nat (length (getPointer (getBuffer B n)))) ->
  exists bufs, (encode B e samples).1 = Returned bufs.
Proof.
  intros Hready Hfmt Hfs Hchs Hmax Hsize Hsrc Hplanes Hsizes Hpool.
  pose proof (ready_nb_samples _ _ _ Hready) as Hnb.
  pose proof (ready_channels _ _ _ Hready) as Hch.
  pose proof (ready_format _ _ _ Hready) as Hformat.
  destruct (exact_size_checks e ctx fr samples Hready ltac:(nia) Hsize)
    as (Hused & Hassert & Haccepted).
  rewrite (encode_checked B e fr samples (ready_frame _ _ _ Hready) Hassert).
  destruct (av_frame_make_writable B fr <? 0); [by eexists|].
  rewrite Haccepted. unfold convert_and_send.
  assert (exists d, convert B fr samples = Planes d) as [d ->].
  { rewrite <- Hnb, <- Hch in *.
    destruct Hfmt as [Hf|Hf]; rewrite Hf in *.
    - destruct (s16p_cells B fr samples) as (d & Hconv & _);
        [done|done|done|unfold INT_MAX in *; nia|lia|done|done|by eexists].
    - destruct (fltp_cells B fr samples) as (d & Hconv & _);
        [done|done|done|unfold INT_MAX in *; nia|lia|done|done|by eexists]. }
  cbn [context set_frame]. rewrite (ready_context _ _ _ Hready).
  destruct (avcodec_send_frame B ctx (with_data fr d)) as [ret ctx'].
  destruct (ret <? 0); [by eexists|].
  cbn [packet set_context set_frame].
  destruct (ready_packet _ _ _ Hready) as [pkt0 Hpkt0]. rewrite Hpkt0.
  destruct (receive_packets_returns (AVCodecContext.pending ctx') [] Hpool)
    as [bufs Hbufs].
  destruct (receive_packets B (AVCodecContext.pending ctx') []) as [[out pkt] rest].
  by exists bufs.
Qed.

(** ** Extradata *)

Section WithMembers.

Variable M : Members.

(** X12.  For an encoder that owns a context, [getExtradata] returns
    [nullptr] exactly when the encoder is not initialized or the context
    has no extradata; in that case [hasExtradata] is false. *)
Theorem getExtradata_null_iff (e : BochanEncoder) (ctx : AVCodecContext.t) :
  context e = Some ctx ->
  (getExtradata B M e = Some None <->
   initialized e = false \/ extradata M ctx = None) /\
  (getExtradata B M e = Some None -> hasExtradata M e = Some false).
Proof.
  intros Hctx. unfold getExtradata, hasExtradata. rewrite Hctx.
  destruct (initialized e); [|by split; [split; eauto|]].
  destruct (extradata M ctx) as [src|]; [|by split; [split; eauto|]].
  destruct (memcpy _ src _); split; try done; split; intros; try done;
    by destruct_or!.
Qed.

(** X13.  When the context carries extradata of [extradata_size] bytes and
    the pool buffer is at least that large, [getExtradata] returns a pool
    buffer that starts with exactly those bytes; the rest of the pool
    buffer and its used size are as the pool gave them. *)
Theorem getExtradata_copies (e : BochanEncoder) (ctx : AVCodecContext.t)
    (src : Memory) :
  initialized e = true -> context e = Some ctx ->
  extradata M ctx = Some src ->
  0 <= extradata_size M ctx <= Z.of_nat (length src) ->
  extradata_size M ctx
    <= Z.of_nat (length (getPointer (getBuffer B (extradata_size M ctx)))) ->
  exists buf,
    hasExtradata M e = Some true /\
    getExtradata B M e = Some (Some buf) /\
    take (Z.to_nat (extradata_size M ctx)) (getPointer buf)
      = take (Z.to_nat (extradata_size M ctx)) src /\
    drop (Z.to_nat (extradata_size M ctx)) (getPointer buf)
      = drop (Z.to_nat (extradata_size M ctx))
          (getPointer (getBuffer B (extradata_size M ctx))) /\
    getUsedSize buf = getUsedSize (getBuffer B (extradata_size M ctx)).
Proof.
  intros Hinit Hctx Hsrc Hsize Hpool.
  unfold getExtradata, hasExtradata. rewrite Hinit, Hctx, Hsrc.
  unfold memcpy.
  destruct (Z.leb_spec 0 (extradata_size M ctx)); [|lia].
  destruct (Z.leb_spec (extradata_size M ctx) (Z.of_nat (length src))); [|lia].
  destruct (Z.leb_spec (extradata_size M ctx)
              (Z.of_nat (length (getPointer (getBuffer B (extradata_size M ctx))))));
    [|lia].
  cbn [andb]. eexists. split_and!; [done|done| | |done]; cbn [getPointer].
  - rewrite take_app_le by (rewrite length_take; lia).
    rewrite take_take. f_equal. lia.
  - rewrite drop_app_length'; [done|]. rewrite length_take. lia.
Qed.

End WithMembers.

End WithBackend.

End EncoderBehaviour.

(* ===================================================================== *)
(** * The further behaviour on concrete sessions                           *)
(* ===================================================================== *)

Module BehaviourSessions.
Import Encoder Extradata Scenario Cases EncoderProperties EncoderBehaviour.

Lemma ready_s16p_debug :
  Ready (session false AV_SAMPLE_FMT_S16P 2)
        (session_context false AV_SAMPLE_FMT_S16P 2)
        (session_frame false AV_SAMPLE_FMT_S16P 2).
Proof. split; vm_compute; eauto. Qed.

Lemma ready_s16p :
  Ready (session true AV_SAMPLE_FMT_S16P 2)
        (session_context true AV_SAMPLE_FMT_S16P 2)
        (session_frame true AV_SAMPLE_FMT_S16P 2).
Proof. split; vm_compute; eauto. Qed.

Lemma ready_fltp :
  Ready (session false AV_SAMPLE_FMT_FLTP 2)
        (session_context false AV_SAMPLE_FMT_FLTP 2)
        (session_frame false AV_SAMPLE_FMT_FLTP 2).
Proof. split; vm_compute; eauto. Qed.

Lemma ready_failing : Ready failing_session failing_context failing_frame.
Proof. split; vm_compute; eauto. Qed.

Lemma pool_large_enough ndebug fmt frameSize n :
  0 <= n ->
  n <= Z.of_nat (length (getPointer (getBuffer (backend ndebug fmt frameSize) n))).
Proof. intros Hn. cbn. unfold zeroed. rewrite length_replicate. lia. Qed.

Lemma two_planes (P : Z -> list byte -> Prop) (planes : list (list byte)) :
  (forall plane, planes !! 0%nat = Some plane -> P 0 plane) ->
  (forall plane, planes !! 1%nat = Some plane -> P 1 plane) ->
  forall j plane, 0 <= j < 2 -> planes !! Z.to_nat j = Some plane -> P j plane.
Proof.
  intros H0 H1 j plane Hj Hlook.
  assert (j = 0 \/ j = 1) as [-> | ->] by lia; eauto.
Qed.

(** The stereo session after [initialize(Tag 1, 48000, 64000)]. *)
Lemma initialize_success_session_witness :
  exists ctx fr,
    Ready (session true AV_SAMPLE_FMT_S16P 2) ctx fr /\
    isInitialized (session true AV_SAMPLE_FMT_S16P 2) = true /\
    getCodec (session true AV_SAMPLE_FMT_S16P 2) = BochanCodec.Tag 1 /\
    getSampleRate (session true AV_SAMPLE_FMT_S16P 2) = 48000 /\
    getBitRate (session true AV_SAMPLE_FMT_S16P 2) = 64000 /\
    sampleFormat (session true AV_SAMPLE_FMT_S16P 2) = AV_SAMPLE_FMT_S16P /\
    codecId (session true AV_SAMPLE_FMT_S16P 2) = 1 /\
    codecId (session true AV_SAMPLE_FMT_S16P 2) <> AV_CODEC_ID_NONE /\
    AVFrame.channel_layout fr = AVCodecContext.channel_layout ctx /\
    bytesPerSample (session true AV_SAMPLE_FMT_S16P 2) =
      bytes_per_sample (AVCodecContext.sample_fmt ctx) /\
    (1024 <> 0 -> getSamplesPerFrame (session true AV_SAMPLE_FMT_S16P 2) <> Some 0).
Proof.
  exact (initialize_success_session (backend true AV_SAMPLE_FMT_S16P 2) neutral
           (session true AV_SAMPLE_FMT_S16P 2) (BochanCodec.Tag 1) 48000 64000
           ltac:(vm_compute; reflexivity)).
Defined.

(** Eight bytes for a session that expects eight, built with assertions. *)
Lemma encode_exact_size_accepted_witness :
  assert_passes (backend false AV_SAMPLE_FMT_S16P 2)
    (session false AV_SAMPLE_FMT_S16P 2) samples8 = Some true /\
  size_rejected (session_frame false AV_SAMPLE_FMT_S16P 2) samples8 = false /\
  encode (backend false AV_SAMPLE_FMT_S16P 2) (session false AV_SAMPLE_FMT_S16P 2) samples8
  = convert_and_send (backend false AV_SAMPLE_FMT_S16P 2)
      (session false AV_SAMPLE_FMT_S16P 2) (session_frame false AV_SAMPLE_FMT_S16P 2)
      samples8.
Proof.
  destruct (encode_exact_size_accepted (backend false AV_SAMPLE_FMT_S16P 2)
              (session false AV_SAMPLE_FMT_S16P 2)
              (session_context false AV_SAMPLE_FMT_S16P 2)
              (session_frame false AV_SAMPLE_FMT_S16P 2) samples8
              ready_s16p_debug
              ltac:(vm_compute; split; discriminate)
              ltac:(vm_compute; reflexivity))
    as (Hassert & Haccepted & Hencode).
  split; [exact Hassert|]. split; [exact Haccepted|].
  rewrite Hencode.
  change (av_frame_make_writable (backend false AV_SAMPLE_FMT_S16P 2)
            (session_frame false AV_SAMPLE_FMT_S16P 2) <? 0) with false.
  reflexivity.
Defined.

(** 2^30 samples on 2 channels of 2 bytes: 2^32 bytes, reported as 0. *)
Lemma getInputBufferByteSize_wraps_witness :
  getInputBufferByteSize wide_encoder = Some 0 /\
  exists n,
    getInputBufferByteSize wide_encoder = Some n /\
    - 2147483648 <= n <= INT_MAX /\
    (1073741824 * 2 * 2 - n) mod 2 ^ 32 = 0.
Proof.
  split; [reflexivity|].
  exact (getInputBufferByteSize_wraps wide_encoder wide_context eq_refl eq_refl).
Defined.

(** The eight audio bytes in the two planes of the planar 16-bit session. *)
Lemma convert_s16p_deinterleaves_witness :
  exists d',
    convert (backend true AV_SAMPLE_FMT_S16P 2)
      (session_frame true AV_SAMPLE_FMT_S16P 2) samples8 = Planes d' /\
    length d' = 2%nat /\
    forall i j, 0 <= i < 2 -> 0 <= j < 2 ->
      exists (plane : list byte) v,
        d' !! Z.to_nat j = Some plane /\
        load_uint16 audio (i * 2 + j) = Some v /\
        load_uint16 plane i = Some v.
Proof.
  apply (convert_s16p_deinterleaves (backend true AV_SAMPLE_FMT_S16P 2)
           (session_frame true AV_SAMPLE_FMT_S16P 2) samples8).
  - reflexivity.
  - vm_compute; discriminate.
  - vm_compute; discriminate.
  - vm_compute; discriminate.
  - vm_compute; discriminate.
  - vm_compute. lia.
  - apply two_planes; intros plane [= <-]; vm_compute; discriminate.
Defined.

(** The same input in the two planes of the planar float session. *)
Lemma convert_fltp_deinterleaves_witness :
  exists d',
    convert (backend false AV_SAMPLE_FMT_FLTP 2)
      (session_frame false AV_SAMPLE_FMT_FLTP 2) samples8 = Planes d' /\
    length d' = 2%nat /\
    forall i j, 0 <= i < 2 -> 0 <= j < 2 ->
      exists (plane : list byte) v,
        d' !! Z.to_nat j = Some plane /\
        load_int16 audio (i * 2 + j) = Some v /\
        - 32768 <= v < 32768 /\
        load_float plane i = Some (wrap_unsigned 32 (wrap_unsigned 32 v)).
Proof.
  apply (convert_fltp_deinterleaves (backend false AV_SAMPLE_FMT_FLTP 2)
           (session_frame false AV_SAMPLE_FMT_FLTP 2) samples8).
  - reflexivity.
  - vm_compute; discriminate.
  - vm_compute; discriminate.
  - vm_compute; discriminate.
  - vm_compute; discriminate.
  - vm_compute. lia.
  - apply two_planes; intros plane [= <-]; vm_compute; discriminate.
Defined.

(** Bytes behind the eight that are due, and the used size, play no part. *)
Lemma planar_conversion_reads_valid_prefix_witness :
  convert (backend true AV_SAMPLE_FMT_S16P 2)
    (session_frame true AV_SAMPLE_FMT_S16P 2) samples8
  = convert (backend true AV_SAMPLE_FMT_S16P 2)
      (session_frame true AV_SAMPLE_FMT_S16P 2) samples8_other.
Proof.
  apply (planar_conversion_reads_valid_prefix (backend true AV_SAMPLE_FMT_S16P 2)
           (session_frame true AV_SAMPLE_FMT_S16P 2) samples8 samples8_other).
  - left. reflexivity.
  - vm_compute; discriminate.
  - reflexivity.
Defined.

Lemma packets_are_packets ndebug fmt frameSize (bytes : list byte) :
  Forall (fun r : Received =>
            0 <= r.1 /\ r.1 <> AVERROR_EAGAIN (backend ndebug fmt frameSize)
            /\ r.1 <> AVERROR_EOF (backend ndebug fmt frameSize))
         [(0, bytes)].
Proof. repeat constructor; cbn; discriminate. Qed.

(** One frame in, one packet out. *)
Lemma encode_returns_packets_in_order_witness :
  exists bufs pkt,
    encode (backend true AV_SAMPLE_FMT_S16P 2) (session true AV_SAMPLE_FMT_S16P 2)
      samples8 =
      (Returned bufs,
       set_packet
         (set_context
            (set_frame (session true AV_SAMPLE_FMT_S16P 2)
               (Some (with_data (session_frame true AV_SAMPLE_FMT_S16P 2) planes8)))
            (Some (with_pending
                     (with_pending (session_context true AV_SAMPLE_FMT_S16P 2)
                        [packet8])
                     (drop 1 []))))
         (Some pkt)) /\
    Forall2 (fun (r : Received) buf =>
               getPointer buf =
                 r.2 ++ drop (length r.2)
                          (getPointer (getBuffer (backend true AV_SAMPLE_FMT_S16P 2)
                                         (Z.of_nat (length r.2)))) /\
               getUsedSize buf =
                 getUsedSize (getBuffer (backend true AV_SAMPLE_FMT_S16P 2)
                                (Z.of_nat (length r.2))))
            [packet8] bufs.
Proof.
  apply (encode_returns_packets_in_order (backend true AV_SAMPLE_FMT_S16P 2)
           (session true AV_SAMPLE_FMT_S16P 2)
           (session_context true AV_SAMPLE_FMT_S16P 2)
           (with_pending (session_context true AV_SAMPLE_FMT_S16P 2) [packet8])
           (session_frame true AV_SAMPLE_FMT_S16P 2) samples8 planes8 0
           [packet8] []).
  - exact ready_s16p.
  - reflexivity.
  - vm_compute; discriminate.
  - vm_compute; reflexivity.
  - vm_compute; reflexivity.
  - vm_compute; reflexivity.
  - lia.
  - reflexivity.
  - intros n Hn. by apply pool_large_enough.
  - apply packets_are_packets.
  - exact I.
Defined.

(** One packet received, then a failed receive call: nothing returned. *)
Lemma encode_failed_receive_returns_nothing_witness :
  (encode failing_backend failing_session samples8).1 = Returned [].
Proof.
  rewrite (encode_failed_receive_returns_nothing failing_backend failing_session
             failing_context
             (with_pending failing_context [packet8; (-22, [])])
             failing_frame samples8 planes8 0 (-22) [] [packet8] []
             ready_failing
             eq_refl
             ltac:(vm_compute; discriminate)
             ltac:(vm_compute; reflexivity)
             ltac:(vm_compute; reflexivity)
             ltac:(vm_compute; reflexivity)
             ltac:(lia)
             eq_refl
             (fun n Hn => pool_large_enough true AV_SAMPLE_FMT_S16P 2 n Hn)
             (packets_are_packets true AV_SAMPLE_FMT_S16P 2 _)
             ltac:(lia)
             ltac:(cbn; discriminate)
             ltac:(cbn; discriminate)).
  reflexivity.
Defined.

(** A session whose context carries no extradata (frame size 960). *)
Lemma getExtradata_null_iff_witness :
  getExtradata (backend true AV_SAMPLE_FMT_S16 960) members
    (session true AV_SAMPLE_FMT_S16 960) = Some None /\
  hasExtradata members (session true AV_SAMPLE_FMT_S16 960) = Some false.
Proof.
  destruct (getExtradata_null_iff (backend true AV_SAMPLE_FMT_S16 960) members
              (session true AV_SAMPLE_FMT_S16 960)
              (session_context true AV_SAMPLE_FMT_S16 960) eq_refl)
    as [Hiff Hhas].
  assert (getExtradata (backend true AV_SAMPLE_FMT_S16 960) members
            (session true AV_SAMPLE_FMT_S16 960) = Some None) as Hnull.
  { apply (proj2 Hiff). right. reflexivity. }
  split; [exact Hnull|exact (Hhas Hnull)].
Defined.

(** A session whose context carries the header, four bytes announced. *)
Lemma getExtradata_copies_witness :
  exists buf,
    hasExtradata members (session true AV_SAMPLE_FMT_S16P 2) = Some true /\
    getExtradata (backend true AV_SAMPLE_FMT_S16P 2) members
      (session true AV_SAMPLE_FMT_S16P 2) = Some (Some buf) /\
    take 4 (getPointer buf) = [x11; x22; x33; x44] /\
    drop 4 (getPointer buf) = [] /\
    getUsedSize buf = 0.
Proof.
  apply (getExtradata_copies (backend true AV_SAMPLE_FMT_S16P 2) members
           (session true AV_SAMPLE_FMT_S16P 2)
           (session_context true AV_SAMPLE_FMT_S16P 2) header).
  - reflexivity.
  - reflexivity.
  - reflexivity.
  - vm_compute. split; discriminate.
  - vm_compute. discriminate.
Defined.

(** Nine bytes for a session that expects eight, built with assertions. *)
Lemma encode_assertion_failed_iff_witness :
  (encode (backend false AV_SAMPLE_FMT_S16P 2) (session false AV_SAMPLE_FMT_S16P 2)
     samples9).1 = AssertionFailed.
Proof.
  apply (proj2 (encode_assertion_failed_iff (backend false AV_SAMPLE_FMT_S16P 2)
                  (session false AV_SAMPLE_FMT_S16P 2)
                  (session_context false AV_SAMPLE_FMT_S16P 2)
                  (session_frame false AV_SAMPLE_FMT_S16P 2) samples9
                  ready_s16p_debug
                  ltac:(vm_compute; split; discriminate))).
  split; [reflexivity|vm_compute; discriminate].
Defined.

(** The planar float session takes the eight audio bytes and returns. *)
Lemma encode_planar_always_returns_witness :
  exists bufs,
    (encode (backend false AV_SAMPLE_FMT_FLTP 2) (session false AV_SAMPLE_FMT_FLTP 2)
       samples8).1 = Returned bufs.
Proof.
  apply (encode_planar_always_returns (backend false AV_SAMPLE_FMT_FLTP 2)
           (session false AV_SAMPLE_FMT_FLTP 2)
           (session_context false AV_SAMPLE_FMT_FLTP 2)
           (session_frame false AV_SAMPLE_FMT_FLTP 2) samples8).
  - exact ready_fltp.
  - right. reflexivity.
  - vm_compute; discriminate.
  - vm_compute; discriminate.
  - vm_compute; discriminate.
  - vm_compute; reflexivity.
  - vm_compute; discriminate.
  - vm_compute. lia.
  - apply two_planes; intros plane [= <-]; vm_compute; discriminate.
  - intros n Hn. by apply pool_large_enough.
Defined.

End BehaviourSessions.
